(** * Start-up of the Cortex serving process ([start_uvicorn.py])

    A shallow embedding of [pkg/workloads/cortex/serve/start_uvicorn.py]:
    the three functions [load_tensorflow_serving_models],
    [is_model_caching_enabled] and [main], written in an exception-and-state
    monad over the process environment, the file system and a log of the
    calls made to the outside collaborators (the model daemons, the
    TensorFlow Serving client, the spec retrieval, uvicorn).

    Strings are ASCII strings; Python integers are [Z]. *)

From stdpp Require Import base option list gmap strings pretty.
From Stdlib Require Import ZArith Ascii.

Local Open Scope string_scope.
Local Open Scope Z_scope.
Local Open Scope list_scope.

(** ** Python values *)

#[local] Set Warnings "-register-all".

(** The objects that [yaml.load] and [get_spec] hand back: [None], booleans,
    integers, strings, lists and dictionaries keyed by strings. *)
Inductive pyval : Type :=
  | PyNone
  | PyBool (b : bool)
  | PyInt (n : Z)
  | PyStr (s : string)
  | PyList (l : list pyval)
  | PyDict (d : gmap string pyval).

(** What a Python statement can raise here. *)
Inductive exn : Type :=
  | KeyError (key : string)
  | ValueError (literal : string)
  | TypeError
  | FileNotFoundError (path : string)
  | OSError (path : string)
  | CollaboratorError (callee : string).

Global Instance exn_eq_dec : EqDecision exn.
Proof. solve_decision. Defined.

(** ** Strings, as the Python built-ins treat them *)

Module Py.

(** [str.isspace] on one ASCII character: tab, line feed, vertical tab,
    form feed, carriage return, the four separators 0x1c-0x1f and space. *)
Definition isspace (c : ascii) : bool :=
  let n := nat_of_ascii c in
  ((9 <=? n)%nat && (n <=? 13)%nat) || ((28 <=? n)%nat && (n <=? 32)%nat).

Fixpoint lstrip (s : string) : string :=
  match s with
  | String c s' => if isspace c then lstrip s' else s
  | EmptyString => EmptyString
  end.

Definition rstrip (s : string) : string :=
  String.rev (lstrip (String.rev s)).

(** [s.strip()] *)
Definition strip (s : string) : string := rstrip (lstrip s).

(** [s.split(sep)] for a one-character separator: the pieces between the
    separators, empty pieces kept, so the result is never empty. *)
Fixpoint split (sep : ascii) (s : string) : list string :=
  match s with
  | EmptyString => [EmptyString]
  | String c s' =>
      if decide (c = sep) then EmptyString :: split sep s'
      else match split sep s' with
           | piece :: rest => String c piece :: rest
           | [] => [String c EmptyString]
           end
  end.

(** [str(n)] for an integer. *)
Definition of_int (n : Z) : string := pretty n.

Definition digit (c : ascii) : option Z :=
  let n := nat_of_ascii c in
  if ((48 <=? n)%nat && (n <=? 57)%nat) then Some (Z.of_nat n - 48) else None.

(** The digits of an [int] literal after the sign: at least one digit, and
    single underscores allowed between digits only.  [acc] is the value
    read so far, [after_digit] tells whether the last character was a
    digit. *)
Fixpoint digits (acc : Z) (after_digit : bool) (s : string) : option Z :=
  match s with
  | EmptyString => if after_digit then Some acc else None
  | String c s' =>
      match digit c with
      | Some d => digits (10 * acc + d) true s'
      | None =>
          if decide (c = "_"%char) then
            if after_digit then digits acc false s' else None
          else None
      end
  end.

(** The white space that [int] drops around an ASCII literal: tab, line
    feed, vertical tab, form feed, carriage return and space.  The
    separators 0x1c-0x1f, which [str.strip] drops, are not among them. *)
Definition int_space (c : ascii) : bool :=
  let n := nat_of_ascii c in
  ((9 <=? n)%nat && (n <=? 13)%nat) || (n =? 32)%nat.

Fixpoint int_lstrip (s : string) : string :=
  match s with
  | String c s' => if int_space c then int_lstrip s' else s
  | EmptyString => EmptyString
  end.

Definition int_strip (s : string) : string :=
  String.rev (int_lstrip (String.rev (int_lstrip s))).

(** [int(s)] for a string, base 10: the white space of [int_space] around
    the literal is dropped, one sign is allowed; [None] stands for the
    [ValueError]. *)
Definition to_int (s : string) : option Z :=
  match int_strip s with
  | String "-" s' => Z.opp <$> digits 0 false s'
  | String "+" s' => digits 0 false s'
  | s' => digits 0 false s'
  end.

(** [os.path.join(a, b)] on POSIX. *)
Definition path_join (a b : string) : string :=
  match b with
  | String "/" _ => b
  | _ =>
      match String.rev a with
      | EmptyString => b
      | String "/" _ => a +:+ b
      | _ => a +:+ "/" +:+ b
      end
  end.

End Py.

(** ** The outside world *)

(** Modelled from the spec: the predictor kinds of [cortex.lib.type], which
    is not part of this source slice.  The spec gives the closed set
    {Python, TensorFlow, TensorFlowNeuron, ONNX}; the names are those that
    [start_uvicorn.py] imports. *)
Inductive PredictorType : Type :=
  | PythonPredictorType
  | TensorFlowPredictorType
  | TensorFlowNeuronPredictorType
  | ONNXPredictorType.

Global Instance PredictorType_eq_dec : EqDecision PredictorType.
Proof. solve_decision. Defined.

(** A call that leaves the process, with the arguments it was given. *)
Inductive event : Type :=
  | WaitNeuronRtd
  | JsonDump (path : string) (text : string)
  | GetSpec (provider spec_path : string) (cache_dir bucket region : option string)
  | Makedirs (path : string)
  | FileBasedModelsTreeUpdaterStart
      (interval : Z) (api_spec : pyval) (download_dir : string)
  | TFSModelLoaderStart
      (interval : Z) (api_spec : pyval) (address tfs_model_dir download_dir : string)
  | AddModelsConfig
      (address : string) (models base_paths : list string) (replace_models : bool)
  | UvicornRun
      (app host : string) (port workers limit_concurrency backlog : Z)
      (log_config : pyval) (log_level : string).

(** How the collaborators answer.  None of them is defined in this file of
    the repository, so each is a parameter of the run: [None] or [false]
    stands for the collaborator raising. *)
Record collaborators : Type := Collaborators {
  yaml_load : string -> option pyval;
  wait_neuron_rtd_ok : bool;
  open_w_ok : string -> bool;
  get_spec : string -> string -> option string -> option string ->
             option string -> option pyval;
  predictor_type_from_api_spec : pyval -> option PredictorType;
  makedirs_ok : string -> bool;
  file_updater_ok : bool;
  tfs_loader_ok : bool;
  add_models_config_ok : string -> bool;
  uvicorn_run_ok : bool;
}.

(** The mutable part of a run: the files, and the calls made so far, oldest
    first. *)
Record world : Type := World {
  files : gmap string string;
  calls : list event;
}.

Definition log (ev : event) (w : world) : world :=
  World (files w) (calls w ++ [ev]).

(** ** Statements: state plus exceptions *)

Inductive outcome (A : Type) : Type :=
  | Returned (a : A)
  | Raised (e : exn).
Arguments Returned {A} a.
Arguments Raised {A} e.

Definition M (A : Type) : Type := world -> outcome A * world.

Definition ret {A} (a : A) : M A := fun w => (Returned a, w).
Definition raise {A} (e : exn) : M A := fun w => (Raised e, w).
Definition bind {A B} (m : M A) (k : A -> M B) : M B :=
  fun w =>
    match m w with
    | (Returned a, w') => k a w'
    | (Raised e, w') => (Raised e, w')
    end.

Declare Scope py_scope.
Delimit Scope py_scope with py.
Notation "x <- m ;; k" := (bind m (fun x => k))
  (at level 100, m at next level, right associativity) : py_scope.
Notation "m ;; k" := (bind m (fun _ => k))
  (at level 100, right associativity) : py_scope.
Local Open Scope py_scope.

(** An optional value that raises when it is missing. *)
Definition or_raise {A} (o : option A) (e : exn) : M A :=
  match o with Some a => ret a | None => raise e end.

(** [for x in xs: body(x)] *)
Fixpoint for_each {A} (xs : list A) (body : A -> M unit) : M unit :=
  match xs with
  | [] => ret tt
  | x :: xs' => body x ;; for_each xs' body
  end.

(** [range(n)] *)
Definition range (n : Z) : list Z := seqZ 0 n.

(** [int(s)] as a statement. *)
Definition int (s : string) : M Z := or_raise (Py.to_int s) (ValueError s).

(** [v[key]]: only a dictionary can be indexed by a string. *)
Definition getitem (v : pyval) (key : string) : M pyval :=
  match v with
  | PyDict d => or_raise (d !! key) (KeyError key)
  | _ => raise TypeError
  end.

(** [v is not None] *)
Definition is_not_None (v : pyval) : bool :=
  match v with PyNone => false | _ => true end.

(** [v > n] for an integer [n]: defined for integers and booleans. *)
Definition gt (v : pyval) (n : Z) : M bool :=
  match v with
  | PyInt m => ret (n <? m)
  | PyBool b => ret (n <? (if b then 1 else 0))
  | _ => raise TypeError
  end.

(** The truth value of what [os.getenv] returns: unset and empty are false. *)
Definition truthy (o : option string) : bool :=
  match o with
  | Some (String _ _) => true
  | _ => false
  end.

(** ** Dictionaries written by the program *)

(** [used_ports] is a Python dictionary from strings to booleans; insertion
    order is kept because [json.dump] writes the items in that order. *)
Definition dict : Type := list (string * bool).

(** [d[k] = v]: an existing key keeps its place and takes the new value, a
    new key goes last. *)
Fixpoint setitem (k : string) (v : bool) (d : dict) : dict :=
  match d with
  | [] => [(k, v)]
  | (k', v') :: d' =>
      if decide (k' = k) then (k, v) :: d' else (k', v') :: setitem k v d'
  end.

Definition dquote : ascii := ascii_of_nat 34.

(** [json.dumps(d)] with the default separators.  A key is written between
    double quotes as it is: the keys of [used_ports] are decimal numerals,
    which need no escape. *)
Definition json_item (kv : string * bool) : string :=
  String dquote (kv.1 +:+ String dquote (": " +:+ (if kv.2 then "true" else "false"))).

Definition json_dumps (d : dict) : string :=
  "{" +:+ String.concat ", " (json_item <$> d) +:+ "}".

(** ** The program *)

Section Program.

(** The collaborators' answers and the process environment of the run. *)
Variable ext : collaborators.
Variable environ : gmap string string.

(** [os.environ[key]] *)
Definition os_environ (key : string) : M string :=
  or_raise (environ !! key) (KeyError key).

(** [os.getenv(key)] *)
Definition os_getenv (key : string) : option string := environ !! key.

(** [os.getenv(key, fallback)] *)
Definition os_getenv_or (key fallback : string) : string :=
  default fallback (environ !! key).

(** A call to a collaborator: it is logged, then it returns its answer or
    raises. *)
Definition call {A} (ev : event) (answer : option A) (callee : string) : M A :=
  fun w =>
    (match answer with
     | Some a => Returned a
     | None => Raised (CollaboratorError callee)
     end, log ev w).

Definition answer (ok : bool) : option unit := if ok then Some tt else None.

(** [with open(path, "r") as f: yaml.load(f, yaml.FullLoader)] *)
Definition yaml_load_file (path : string) : M pyval :=
  fun w =>
    match files w !! path with
    | None => (Raised (FileNotFoundError path), w)
    | Some text =>
        (match yaml_load ext text with
         | Some v => Returned v
         | None => Raised (CollaboratorError "yaml.load")
         end, w)
    end.

(** [with open(path, "w+") as f: json.dump(d, f)]: the file is created or
    truncated, then holds the dump. *)
Definition json_dump_file (path : string) (d : dict) : M unit :=
  fun w =>
    if open_w_ok ext path
    then (Returned tt,
          World (<[path := json_dumps d]> (files w))
                (calls w ++ [JsonDump path (json_dumps d)]))
    else (Raised (OSError path), w).

(** [TensorFlowServing(address).add_models_config(models, base_paths,
    replace_models=...)] *)
Definition add_models_config (address : string) (models base_paths : list string)
    (replace_models : bool) : M unit :=
  call (AddModelsConfig address models base_paths replace_models)
       (answer (add_models_config_ok ext address)) "add_models_config".

(** [os.makedirs(path, exist_ok=True)] *)
Definition makedirs (path : string) : M unit :=
  call (Makedirs path) (answer (makedirs_ok ext path)) "os.makedirs".

(** Lines 35-57. *)
Definition load_tensorflow_serving_models : M unit :=
  model_dir <- os_environ "CORTEX_MODEL_DIR" ;;
  let tf_serving_host := os_getenv_or "CORTEX_TF_SERVING_HOST" "localhost" in
  tf_base_serving_port <- int (os_getenv_or "CORTEX_TF_BASE_SERVING_PORT" "9000") ;;
  models <- os_environ "CORTEX_MODELS" ;;
  let models := Py.split "," models in
  let models := Py.strip <$> models in
  let has_multiple_tf_servers := os_getenv "CORTEX_MULTIPLE_TF_SERVERS" in
  num_processes <-
    (if truthy has_multiple_tf_servers
     then s <- os_environ "CORTEX_PROCESSES_PER_REPLICA" ;; int s
     else ret 1) ;;
  let base_paths := Py.path_join model_dir <$> models in
  for_each (range num_processes) (fun w =>
    add_models_config
      (tf_serving_host +:+ ":" +:+ Py.of_int (tf_base_serving_port + w))
      models base_paths false).

(** Lines 60-64.  [and] evaluates its right operand only when the left one
    is true. *)
Definition is_model_caching_enabled (api_spec : pyval) : M bool :=
  predictor <- getitem api_spec "predictor" ;;
  models <- getitem predictor "models" ;;
  cache_size <- getitem models "cache_size" ;;
  if is_not_None cache_size then
    predictor <- getitem api_spec "predictor" ;;
    models <- getitem predictor "models" ;;
    disk_cache_size <- getitem models "disk_cache_size" ;;
    ret (is_not_None disk_cache_size)
  else ret false.

(** Lines 81-83: the table of ports, none of them in use. *)
Definition used_ports (base_serving_port num_processes : Z) : dict :=
  foldl (fun d w => setitem (Py.of_int (base_serving_port + w)) false d)
        [] (range num_processes).

(** Lines 76-85 of [main]. *)
Definition main_used_ports : M unit :=
  let has_multiple_tf_servers := os_getenv "CORTEX_MULTIPLE_TF_SERVERS" in
  if truthy has_multiple_tf_servers then
    base_serving_port <- (s <- os_environ "CORTEX_TF_BASE_SERVING_PORT" ;; int s) ;;
    num_processes <- (s <- os_environ "CORTEX_PROCESSES_PER_REPLICA" ;; int s) ;;
    json_dump_file "/run/used_ports.json" (used_ports base_serving_port num_processes)
  else ret tt.

(** Lines 105-129 of [main]: the model side-reloading that is started. *)
Definition main_side_reloading (api_spec : pyval) (predictor_type : PredictorType)
    (caching_enabled : bool) (model_dir : string) : M unit :=
  if negb caching_enabled
     && negb (bool_decide (predictor_type ∈
                [TensorFlowPredictorType; TensorFlowNeuronPredictorType]))
  then
    call (FileBasedModelsTreeUpdaterStart 10 api_spec model_dir)
         (answer (file_updater_ok ext)) "FileBasedModelsTreeUpdater"
  else if negb caching_enabled
          && bool_decide (predictor_type = TensorFlowPredictorType)
  then
    let tf_serving_port := os_getenv_or "CORTEX_TF_BASE_SERVING_PORT" "9000" in
    let tf_serving_host := os_getenv_or "CORTEX_TF_SERVING_HOST" "localhost" in
    call (TFSModelLoaderStart 10 api_spec
            (tf_serving_host +:+ ":" +:+ tf_serving_port) model_dir model_dir)
         (answer (tfs_loader_ok ext)) "TFSModelLoader"
  else if negb caching_enabled
          && bool_decide (predictor_type = TensorFlowNeuronPredictorType)
  then load_tensorflow_serving_models
  else ret tt.

(** Lines 134-145 of [main]: the arguments are evaluated in order, then
    [uvicorn.run] is called. *)
Definition main_uvicorn_run (log_config : pyval) : M unit :=
  port <- (s <- os_environ "CORTEX_SERVING_PORT" ;; int s) ;;
  workers <- (s <- os_environ "CORTEX_PROCESSES_PER_REPLICA" ;; int s) ;;
  limit_concurrency <- (s <- os_environ "CORTEX_MAX_PROCESS_CONCURRENCY" ;; int s) ;;
  backlog <- (s <- os_environ "CORTEX_SO_MAX_CONN" ;; int s) ;;
  call (UvicornRun "cortex.serve.wsgi:app" "0.0.0.0" port workers
          limit_concurrency backlog log_config "info")
       (answer (uvicorn_run_ok ext)) "uvicorn.run".

(** Lines 67-145. *)
Definition main : M unit :=
  log_config <- yaml_load_file "/src/cortex/serve/log_config.yaml" ;;
  let uses_inferentia := os_getenv "CORTEX_ACTIVE_NEURON" in
  (if truthy uses_inferentia
   then call WaitNeuronRtd (answer (wait_neuron_rtd_ok ext)) "wait_neuron_rtd"
   else ret tt) ;;
  main_used_ports ;;
  provider <- os_environ "CORTEX_PROVIDER" ;;
  spec_path <- os_environ "CORTEX_API_SPEC" ;;
  let cache_dir := os_getenv "CORTEX_CACHE_DIR" in
  let bucket := os_getenv "CORTEX_BUCKET" in
  let region := os_getenv "AWS_REGION" in
  api_spec <- call (GetSpec provider spec_path cache_dir bucket region)
                   (get_spec ext provider spec_path cache_dir bucket region)
                   "get_spec" ;;
  predictor_type <- or_raise (predictor_type_from_api_spec ext api_spec)
                             (CollaboratorError "predictor_type_from_api_spec") ;;
  multiple_processes <-
    (predictor <- getitem api_spec "predictor" ;;
     processes_per_replica <- getitem predictor "processes_per_replica" ;;
     gt processes_per_replica 1) ;;
  caching_enabled <- is_model_caching_enabled api_spec ;;
  model_dir <- os_environ "CORTEX_MODEL_DIR" ;;
  (if negb caching_enabled
   then makedirs "/run/cron" ;; makedirs "/tmp/cron"
   else ret tt) ;;
  main_side_reloading api_spec predictor_type caching_enabled model_dir ;;
  main_uvicorn_run log_config.

End Program.

(** ** Reading a run *)

(** The calls a statement adds to the log when it is run from [w]. *)
Definition emitted {A} (m : M A) (w : world) : list event :=
  drop (length (calls w)) (calls (m w).2).

Definition is_launch (ev : event) : bool :=
  match ev with UvicornRun _ _ _ _ _ _ _ _ => true | _ => false end.

Definition is_daemon_start (ev : event) : bool :=
  match ev with
  | FileBasedModelsTreeUpdaterStart _ _ _ | TFSModelLoaderStart _ _ _ _ _ => true
  | _ => false
  end.

Definition is_direct_load (ev : event) : bool :=
  match ev with AddModelsConfig _ _ _ _ => true | _ => false end.

Definition is_port_table_write (ev : event) : bool :=
  match ev with
  | JsonDump path _ => bool_decide (path = "/run/used_ports.json")
  | _ => false
  end.

Definition direct_load_ok (ext : collaborators) (ev : event) : bool :=
  match ev with
  | AddModelsConfig address _ _ _ => add_models_config_ok ext address
  | _ => true
  end.

(** The outcome of a call whose collaborator answers [ok]. *)
Definition outcome_of (ok : bool) (callee : string) : outcome unit :=
  if ok then Returned tt else Raised (CollaboratorError callee).

Definition present {A} (o : option A) : bool :=
  match o with Some _ => true | None => false end.

(** An integer read from the environment: [int(os.environ[key])] when both
    steps succeed. *)
Definition env_int (environ : gmap string string) (key : string) : option Z :=
  environ !! key ≫= Py.to_int.

(** The host of the backing servers, [os.getenv("CORTEX_TF_SERVING_HOST",
    "localhost")]. *)
Definition tfs_host (environ : gmap string string) : string :=
  os_getenv_or environ "CORTEX_TF_SERVING_HOST" "localhost".

(** The address [f"{host}:{port + w}"] of a backing server. *)
Definition tfs_address (host : string) (port w : Z) : string :=
  host +:+ ":" +:+ Py.of_int (port + w).

(** The value of the local [num_processes] of
    [load_tensorflow_serving_models] (lines 48-51), when its computation does
    not raise. *)
Definition num_processes (environ : gmap string string) : option Z :=
  if truthy (environ !! "CORTEX_MULTIPLE_TF_SERVERS")
  then env_int environ "CORTEX_PROCESSES_PER_REPLICA"
  else Some 1.

(** The call made to the backing server of index [w]: every model name,
    every path, and [replace_models=False]. *)
Definition direct_load_call (environ : gmap string string)
    (model_dir models : string) (port w : Z) : event :=
  let names := Py.strip <$> Py.split "," models in
  AddModelsConfig (tfs_address (tfs_host environ) port w)
    names (Py.path_join model_dir <$> names) false.

(** Every value that [main] reads with [os.environ[...]] on each run is
    there, and those it passes to [int] are integers; the base port is among
    them when [CORTEX_MULTIPLE_TF_SERVERS] is set. *)
Definition config_complete (environ : gmap string string) : bool :=
  present (environ !! "CORTEX_PROVIDER")
  && present (environ !! "CORTEX_API_SPEC")
  && present (environ !! "CORTEX_MODEL_DIR")
  && present (env_int environ "CORTEX_SERVING_PORT")
  && present (env_int environ "CORTEX_PROCESSES_PER_REPLICA")
  && present (env_int environ "CORTEX_MAX_PROCESS_CONCURRENCY")
  && present (env_int environ "CORTEX_SO_MAX_CONN")
  && (if truthy (environ !! "CORTEX_MULTIPLE_TF_SERVERS")
      then present (env_int environ "CORTEX_TF_BASE_SERVING_PORT")
      else true).

(** [ev] is the call [uvicorn.run(...)] with the arguments of lines 135-144
    for the run that starts in [w]. *)
Definition launch_call (ext : collaborators) (environ : gmap string string)
    (w : world) (ev : event) : Prop :=
  exists text log_config port workers limit_concurrency backlog,
    files w !! "/src/cortex/serve/log_config.yaml" = Some text /\
    yaml_load ext text = Some log_config /\
    env_int environ "CORTEX_SERVING_PORT" = Some port /\
    env_int environ "CORTEX_PROCESSES_PER_REPLICA" = Some workers /\
    env_int environ "CORTEX_MAX_PROCESS_CONCURRENCY" = Some limit_concurrency /\
    env_int environ "CORTEX_SO_MAX_CONN" = Some backlog /\
    ev = UvicornRun "cortex.serve.wsgi:app" "0.0.0.0" port workers
           limit_concurrency backlog log_config "info".

(** The three ways a run of [main] ends, with the calls it has made: an
    exception before any direct load failed and before the launch; a direct
    load that failed, as the last call; the launch, as the last call. *)
Inductive main_ends (ext : collaborators) (environ : gmap string string) (w : world) :
    outcome unit -> list event -> Prop :=
  | ends_before_launch e evs :
      Forall (fun ev => is_launch ev = false) evs ->
      Forall (fun ev => direct_load_ok ext ev = true) evs ->
      main_ends ext environ w (Raised e) evs
  | ends_in_direct_load evs address models base_paths replace_models :
      Forall (fun ev => is_launch ev = false) evs ->
      Forall (fun ev => direct_load_ok ext ev = true) evs ->
      add_models_config_ok ext address = false ->
      main_ends ext environ w (Raised (CollaboratorError "add_models_config"))
        (evs ++ [AddModelsConfig address models base_paths replace_models])
  | ends_launched evs ev :
      Forall (fun ev => is_launch ev = false) evs ->
      Forall (fun ev => direct_load_ok ext ev = true) evs ->
      launch_call ext environ w ev ->
      config_complete environ = true ->
      main_ends ext environ w (outcome_of (uvicorn_run_ok ext) "uvicorn.run")
        (evs ++ [ev]).

(** The conditions under which lines 68-85 reach [json.dump] and it goes
    through: the logging configuration loads, the wait for the sidecar (when
    there is one) returns, [CORTEX_MULTIPLE_TF_SERVERS] is set and not empty,
    the base port and the number of processes are integers, and the file can
    be opened.  Neither the API spec nor the predictor type is among them. *)
Definition writes_port_table (ext : collaborators) (environ : gmap string string)
    (w : world) : bool :=
  match files w !! "/src/cortex/serve/log_config.yaml" with
  | Some text => present (yaml_load ext text)
  | None => false
  end
  && (if truthy (environ !! "CORTEX_ACTIVE_NEURON") then wait_neuron_rtd_ok ext else true)
  && truthy (environ !! "CORTEX_MULTIPLE_TF_SERVERS")
  && present (env_int environ "CORTEX_TF_BASE_SERVING_PORT")
  && present (env_int environ "CORTEX_PROCESSES_PER_REPLICA")
  && open_w_ok ext "/run/used_ports.json".

(** Whether a run of [main] writes the table of ports. *)
Definition port_table_written (ext : collaborators) (environ : gmap string string)
    (w : world) : bool :=
  existsb is_port_table_write (emitted (main ext environ) w).

(** The predictor type that a run of [main] works with (lines 88-95), when
    it gets that far. *)
Definition run_kind (ext : collaborators) (environ : gmap string string) :
    option PredictorType :=
  provider ← environ !! "CORTEX_PROVIDER";
  spec_path ← environ !! "CORTEX_API_SPEC";
  api_spec ← get_spec ext provider spec_path (environ !! "CORTEX_CACHE_DIR")
               (environ !! "CORTEX_BUCKET") (environ !! "AWS_REGION");
  predictor_type_from_api_spec ext api_spec.

(** The caching mode as the data model of the design document words it:
    enabled iff [cache_size] and [disk_cache_size] are both present and not
    null under [predictor.models]; a missing field disables caching. *)
Definition field_non_null (d : gmap string pyval) (key : string) : bool :=
  match d !! key with Some v => is_not_None v | None => false end.

Definition caching_mode_spec (api_spec : pyval) : bool :=
  match api_spec with
  | PyDict d =>
      match d !! "predictor" with
      | Some (PyDict p) =>
          match p !! "models" with
          | Some (PyDict m) =>
              field_non_null m "cache_size" && field_non_null m "disk_cache_size"
          | _ => false
          end
      | _ => false
      end
  | _ => false
  end.

(** ** Invariants of a run and weakest preconditions *)

(** Since [w], only calls that satisfy [P] have been made. *)
Definition since (P : event -> Prop) (w w' : world) : Prop :=
  exists evs, calls w' = calls w ++ evs /\ Forall P evs.

(** Since [w], only calls that are neither the launch nor a failed direct
    load. *)
Definition quiet (ext : collaborators) (w w' : world) : Prop :=
  since (fun ev => is_launch ev = false /\ direct_load_ok ext ev = true) w w'.

Definition main_post (ext : collaborators) (environ : gmap string string)
    (w : world) (o : outcome unit) (w' : world) : Prop :=
  exists evs, calls w' = calls w ++ evs /\ main_ends ext environ w o evs.

(** Since [w], the table of ports has been written or not, as [b] tells. *)
Definition ports_settled (b : bool) (w w' : world) : Prop :=
  exists evs, calls w' = calls w ++ evs /\ existsb is_port_table_write evs = b.

(** A call of the direct load, as the environment determines it. *)
Definition direct_load_event (environ : gmap string string) (ev : event) : Prop :=
  exists model_dir models port w,
    environ !! "CORTEX_MODEL_DIR" = Some model_dir /\
    environ !! "CORTEX_MODELS" = Some models /\
    Py.to_int (os_getenv_or environ "CORTEX_TF_BASE_SERVING_PORT" "9000") = Some port /\
    0 <= w /\
    ev = AddModelsConfig
           (os_getenv_or environ "CORTEX_TF_SERVING_HOST" "localhost" +:+ ":" +:+
            Py.of_int (port + w))
           (Py.strip <$> Py.split "," models)
           (Py.path_join model_dir <$> (Py.strip <$> Py.split "," models))
           false.

(** [wp m Q w]: running [m] from [w] ends in an outcome and a world that
    satisfy [Q]. *)
Definition wp {A} (m : M A) (Q : outcome A -> world -> Prop) (w : world) : Prop :=
  Q (m w).1 (m w).2.

(** What is asked of the first statement of a sequence. *)
Definition wp_then {A B} (k : A -> M B) (Q : outcome B -> world -> Prop)
    (o : outcome A) (w : world) : Prop :=
  match o with
  | Returned a => wp (k a) Q w
  | Raised e => Q (Raised e) w
  end.

(** A statement that leaves the world as it is. *)
Definition pure_stmt {A} (m : M A) : Prop := forall w, (m w).2 = w.

(** ** Sample runs *)

Definition sample_world : world :=
  World {[ "/src/cortex/serve/log_config.yaml" := "version: 1" ]} [].

Definition sample_api_spec (cache_size disk_cache_size : pyval) : pyval :=
  PyDict {[ "predictor" :=
    PyDict {[ "processes_per_replica" := PyInt 2;
              "models" := PyDict {[ "cache_size" := cache_size;
                                    "disk_cache_size" := disk_cache_size ]} ]} ]}.

(** An API spec whose [predictor.models] section has no [cache_size]. *)
Definition api_spec_without_cache_size : pyval :=
  PyDict {[ "predictor" :=
    PyDict {[ "processes_per_replica" := PyInt 2;
              "models" := PyDict {[ "disk_cache_size" := PyInt 1 ]} ]} ]}.

(** Collaborators that all answer, for a predictor of type [kind] without
    caching; [add_models_config] fails at the addresses in [down]. *)
Definition sample_ext (kind : PredictorType) (down : list string) : collaborators :=
  {| yaml_load := fun _ => Some (PyDict ∅);
     wait_neuron_rtd_ok := true;
     open_w_ok := fun _ => true;
     get_spec := fun _ _ _ _ _ => Some (sample_api_spec PyNone PyNone);
     predictor_type_from_api_spec := fun _ => Some kind;
     makedirs_ok := fun _ => true;
     file_updater_ok := true;
     tfs_loader_ok := true;
     add_models_config_ok := fun address => negb (bool_decide (address ∈ down));
     uvicorn_run_ok := true |}.

(** An environment with two backing servers from port 9000 on host [tfs]. *)
Definition sample_environ : gmap string string :=
  list_to_map
    [ ("CORTEX_MODEL_DIR", "/mnt/model");
      ("CORTEX_MODELS", "iris, resnet50");
      ("CORTEX_TF_SERVING_HOST", "tfs");
      ("CORTEX_TF_BASE_SERVING_PORT", "9000");
      ("CORTEX_MULTIPLE_TF_SERVERS", "true");
      ("CORTEX_PROCESSES_PER_REPLICA", "2");
      ("CORTEX_PROVIDER", "aws");
      ("CORTEX_API_SPEC", "s3://bucket/apis/iris/spec.msgpack");
      ("CORTEX_SERVING_PORT", "8888");
      ("CORTEX_MAX_PROCESS_CONCURRENCY", "4");
      ("CORTEX_SO_MAX_CONN", "1024") ].

(** ** More readings of a run *)

Definition is_dict (v : pyval) : bool :=
  match v with PyDict _ => true | _ => false end.

(** Every character of [s] satisfies [P]. *)
Fixpoint all_chars (P : ascii -> bool) (s : string) : bool :=
  match s with
  | EmptyString => true
  | String c s' => P c && all_chars P s'
  end.

(** [s] does not start with white space. *)
Definition starts_clean (s : string) : bool :=
  match s with
  | String c _ => negb (Py.isspace c)
  | EmptyString => true
  end.

(** [s] has no white space at either end. *)
Definition trimmed (s : string) : bool :=
  starts_clean s && starts_clean (String.rev s).

(** The number of occurrences of [c] in [s]. *)
Fixpoint count_char (c : ascii) (s : string) : nat :=
  match s with
  | EmptyString => 0
  | String c' s' => (if decide (c' = c) then 1 else 0) + count_char c s'
  end.

(** ** The order of the calls of [main] *)

(** How far a run of [main] has come, told by the last call it made. *)
Inductive phase : Type :=
  | Started
  | Waited
  | PortsWritten
  | SpecFetched
  | RunDirMade
  | TmpDirMade
  | DirectLoading
  | DaemonStarted
  | Launched.

Definition rank (q : phase) : nat :=
  match q with
  | Started => 0
  | Waited => 1
  | PortsWritten => 2
  | SpecFetched => 3
  | RunDirMade => 4
  | TmpDirMade => 5
  | DirectLoading => 6
  | DaemonStarted => 7
  | Launched => 8
  end.

(** The phase that a call leads to. *)
Definition phase_after (ev : event) : phase :=
  match ev with
  | WaitNeuronRtd => Waited
  | JsonDump _ _ => PortsWritten
  | GetSpec _ _ _ _ _ => SpecFetched
  | Makedirs path =>
      if bool_decide (path = "/run/cron") then RunDirMade else TmpDirMade
  | AddModelsConfig _ _ _ _ => DirectLoading
  | FileBasedModelsTreeUpdaterStart _ _ _ | TFSModelLoaderStart _ _ _ _ _ =>
      DaemonStarted
  | UvicornRun _ _ _ _ _ _ _ _ => Launched
  end.

(** The API spec that a run of [main] works with (lines 88-93), when it
    gets that far. *)
Definition run_spec (ext : collaborators) (environ : gmap string string) :
    option pyval :=
  provider ← environ !! "CORTEX_PROVIDER";
  spec_path ← environ !! "CORTEX_API_SPEC";
  get_spec ext provider spec_path (environ !! "CORTEX_CACHE_DIR")
    (environ !! "CORTEX_BUCKET") (environ !! "AWS_REGION").

(** The calls that [main] can make in phase [q] of the run that starts in
    [w], each with the arguments that the source gives it. *)
Definition allowed (ext : collaborators) (environ : gmap string string) (w : world)
    (q : phase) (ev : event) : Prop :=
  match ev with
  | WaitNeuronRtd =>
      q = Started /\ truthy (environ !! "CORTEX_ACTIVE_NEURON") = true
  | JsonDump path text =>
      (rank q < 2)%nat /\
      truthy (environ !! "CORTEX_MULTIPLE_TF_SERVERS") = true /\
      path = "/run/used_ports.json" /\
      exists base n,
        env_int environ "CORTEX_TF_BASE_SERVING_PORT" = Some base /\
        env_int environ "CORTEX_PROCESSES_PER_REPLICA" = Some n /\
        text = json_dumps (used_ports base n)
  | GetSpec provider spec_path cache_dir bucket region =>
      (rank q < 3)%nat /\
      environ !! "CORTEX_PROVIDER" = Some provider /\
      environ !! "CORTEX_API_SPEC" = Some spec_path /\
      cache_dir = environ !! "CORTEX_CACHE_DIR" /\
      bucket = environ !! "CORTEX_BUCKET" /\
      region = environ !! "AWS_REGION"
  | Makedirs path =>
      (q = SpecFetched /\ path = "/run/cron") \/
      (q = RunDirMade /\ path = "/tmp/cron")
  | FileBasedModelsTreeUpdaterStart interval api_spec download_dir =>
      q = TmpDirMade /\ interval = 10 /\
      run_spec ext environ = Some api_spec /\
      environ !! "CORTEX_MODEL_DIR" = Some download_dir /\
      (run_kind ext environ = Some PythonPredictorType \/
       run_kind ext environ = Some ONNXPredictorType)
  | TFSModelLoaderStart interval api_spec address tfs_model_dir download_dir =>
      q = TmpDirMade /\ interval = 10 /\
      run_spec ext environ = Some api_spec /\
      environ !! "CORTEX_MODEL_DIR" = Some download_dir /\
      tfs_model_dir = download_dir /\
      address = os_getenv_or environ "CORTEX_TF_SERVING_HOST" "localhost" +:+ ":" +:+
                os_getenv_or environ "CORTEX_TF_BASE_SERVING_PORT" "9000" /\
      run_kind ext environ = Some TensorFlowPredictorType
  | AddModelsConfig _ _ _ _ =>
      (q = TmpDirMade \/ q = DirectLoading) /\
      run_kind ext environ = Some TensorFlowNeuronPredictorType /\
      direct_load_event environ ev
  | UvicornRun _ _ _ _ _ _ _ _ =>
      (q = SpecFetched \/ q = TmpDirMade \/ q = DirectLoading \/ q = DaemonStarted) /\
      launch_call ext environ w ev
  end.

(** The sequences of calls that follow this order, with the phase they
    end in. *)
Inductive follows (ext : collaborators) (environ : gmap string string) (w : world) :
    list event -> phase -> Prop :=
  | follows_nil : follows ext environ w [] Started
  | follows_snoc evs q ev :
      follows ext environ w evs q ->
      allowed ext environ w q ev ->
      follows ext environ w (evs ++ [ev]) (phase_after ev).

(** Since [w], the calls have followed the order and reached phase [q]. *)
Definition reached (ext : collaborators) (environ : gmap string string)
    (w : world) (q : phase) (w' : world) : Prop :=
  exists evs, calls w' = calls w ++ evs /\ follows ext environ w evs q.

(** The calls that stage models ahead of serving: the scratch directories,
    the daemons and the direct loads. *)
Definition is_staging (ev : event) : bool :=
  match ev with
  | Makedirs _ | FileBasedModelsTreeUpdaterStart _ _ _
  | TFSModelLoaderStart _ _ _ _ _ | AddModelsConfig _ _ _ _ => true
  | _ => false
  end.

(** ** Basic facts on statements *)

Lemma emitted_app {A} (m : M A) (w : world) (evs : list event) :
  calls (m w).2 = calls w ++ evs -> emitted m w = evs.
Proof.
  intros Hc. unfold emitted. rewrite Hc. apply drop_app_length.
Qed.

Lemma call_run {A} (ev : event) (ans : option A) (callee : string) (w : world) :
  call ev ans callee w =
  (match ans with
   | Some a => Returned a
   | None => Raised (CollaboratorError callee)
   end, World (files w) (calls w ++ [ev])).
Proof. reflexivity. Qed.

Lemma env_int_intro (environ : gmap string string) key s z :
  environ !! key = Some s -> Py.to_int s = Some z -> env_int environ key = Some z.
Proof. intros Hs Hz. unfold env_int. by rewrite Hs. Qed.

(** A loop of logged calls stops at the first one that raises: the calls up
    to and including that one are in the log, in order, and nothing else. *)
Lemma for_each_call {A} (ev : A -> event) (ok : A -> bool) (callee : string)
    (xs : list A) (w : world) :
  for_each xs (fun x => call (ev x) (answer (ok x)) callee) w =
  match list_find (fun x => ok x = false) xs with
  | None => (Returned tt, World (files w) (calls w ++ (ev <$> xs)))
  | Some (i, _) =>
      (Raised (CollaboratorError callee),
       World (files w) (calls w ++ (ev <$> take (S i) xs)))
  end.
Proof.
  revert w. induction xs as [|x xs IH]; intros w.
  - simpl. rewrite app_nil_r. by destruct w.
  - cbn [for_each list_find]. unfold bind at 1. rewrite call_run.
    destruct (ok x) eqn:Hx; cbn [answer].
    + rewrite IH. cbn [files calls]. rewrite decide_False by congruence.
      destruct (list_find _ xs) as [[i y]|]; cbn [fmap option_fmap option_map prod_map fst snd];
        rewrite <- app_assoc; reflexivity.
    + rewrite decide_True by done. reflexivity.
Qed.

(** ** The direct load *)

Section DirectLoad.

Variable ext : collaborators.
Variable environ : gmap string string.
Variables (model_dir models : string) (port n : Z).

Hypothesis Hdir : environ !! "CORTEX_MODEL_DIR" = Some model_dir.
Hypothesis Hmodels : environ !! "CORTEX_MODELS" = Some models.
Hypothesis Hport :
  Py.to_int (os_getenv_or environ "CORTEX_TF_BASE_SERVING_PORT" "9000") = Some port.
Hypothesis Hn : num_processes environ = Some n.

(** With its four inputs readable, the function is its loop. *)
Lemma load_tensorflow_serving_models_loop (w : world) :
  load_tensorflow_serving_models ext environ w =
  for_each (range n)
    (fun i => call (direct_load_call environ model_dir models port i)
                   (answer (add_models_config_ok ext
                              (tfs_address (tfs_host environ) port i)))
                   "add_models_config") w.
Proof.
  unfold load_tensorflow_serving_models, bind, os_environ, int, or_raise, ret.
  rewrite Hdir, Hport, Hmodels. cbv beta iota.
  unfold num_processes, env_int, os_getenv in *.
  destruct (truthy (environ !! "CORTEX_MULTIPLE_TF_SERVERS")).
  - unfold bind, or_raise.
    destruct (environ !! "CORTEX_PROCESSES_PER_REPLICA") as [s|]; [|done].
    cbn in Hn. rewrite Hn. reflexivity.
  - injection Hn as <-. reflexivity.
Qed.

(** Every call succeeds: one call per index, in order. *)
Lemma load_tensorflow_serving_models_ok (w : world) :
  (forall i, 0 <= i < n ->
     add_models_config_ok ext (tfs_address (tfs_host environ) port i) = true) ->
  load_tensorflow_serving_models ext environ w =
  (Returned tt,
   World (files w)
         (calls w ++ (direct_load_call environ model_dir models port <$> seqZ 0 n))).
Proof.
  intros Hok. rewrite load_tensorflow_serving_models_loop, for_each_call.
  destruct (list_find _ _) as [[k i]|] eqn:Hfind; [|done].
  apply list_find_Some in Hfind as (Hk & Hfalse & _).
  apply lookup_seqZ in Hk as [-> Hk].
  rewrite Hok in Hfalse by lia. done.
Qed.

(** The call of index [i] is the first to fail: the calls of indices
    [0..i] are in the log and the error leaves the function. *)
Lemma load_tensorflow_serving_models_fail (w : world) (i : Z) :
  0 <= i < n ->
  (forall j, 0 <= j < i ->
     add_models_config_ok ext (tfs_address (tfs_host environ) port j) = true) ->
  add_models_config_ok ext (tfs_address (tfs_host environ) port i) = false ->
  load_tensorflow_serving_models ext environ w =
  (Raised (CollaboratorError "add_models_config"),
   World (files w)
         (calls w ++ (direct_load_call environ model_dir models port <$> seqZ 0 (i + 1)))).
Proof.
  intros Hi Hok Hfail. rewrite load_tensorflow_serving_models_loop, for_each_call.
  destruct (list_find _ _) as [[k j]|] eqn:Hfind.
  - apply list_find_Some in Hfind as (Hk & Hfalse & Hbefore).
    apply lookup_seqZ in Hk as [-> Hk]. rewrite Z.add_0_l in *.
    assert (Z.of_nat k = i) as Hki.
    { destruct (Z.lt_trichotomy (Z.of_nat k) i) as [Hlt|[Heq|Hgt]]; [|done|].
      - rewrite Hok in Hfalse by lia. done.
      - destruct (Hbefore (Z.to_nat i) i) as []; [|lia|done].
        apply lookup_seqZ. lia. }
    subst i. unfold range.
    replace (take (S k) (seqZ 0 n)) with (seqZ 0 (Z.of_nat k + 1)); [done|].
    replace n with ((Z.of_nat k + 1) + (n - (Z.of_nat k + 1))) at 1 by lia.
    rewrite (seqZ_app 0 (Z.of_nat k + 1) (n - (Z.of_nat k + 1))) by lia.
    rewrite take_app_length'; [done|]. rewrite length_seqZ. lia.
  - apply list_find_None in Hfind.
    rewrite Forall_forall in Hfind. destruct (Hfind i); [|done].
    apply elem_of_seqZ. lia.
Qed.

(** With at least one process the first backing server is called, whatever
    the calls answer: the calls made start with the call of index 0. *)
Lemma load_tensorflow_serving_models_first (w : world) :
  1 <= n ->
  exists rest,
    emitted (load_tensorflow_serving_models ext environ) w =
    direct_load_call environ model_dir models port 0 :: rest.
Proof.
  intros Hpos.
  assert (range n = 0 :: seqZ 1 (n - 1)) as Hrange.
  { unfold range. rewrite seqZ_cons by lia. done. }
  assert (exists rest,
            calls (load_tensorflow_serving_models ext environ w).2 =
            calls w ++ direct_load_call environ model_dir models port 0 :: rest)
    as [rest Hrest].
  { rewrite load_tensorflow_serving_models_loop, for_each_call, Hrange.
    destruct (list_find _ _) as [[k i]|]; cbn; eexists; reflexivity. }
  exists rest. by apply emitted_app.
Qed.

End DirectLoad.

(** ** The table of ports *)

Lemma setitem_fresh (k : string) (v : bool) (d : dict) :
  k ∉ d.*1 -> setitem k v d = d ++ [(k, v)].
Proof.
  induction d as [|[k' v'] d IH]; intros Hk; [done|].
  cbn [setitem]. rewrite fmap_cons, not_elem_of_cons in Hk. destruct Hk as [Hne Hk].
  rewrite decide_False by (cbn in Hne; congruence).
  by rewrite IH.
Qed.

Lemma foldl_setitem_fresh {A} (key : A -> string) (xs : list A) (d : dict) :
  NoDup (key <$> xs) ->
  (forall x, x ∈ xs -> key x ∉ d.*1) ->
  foldl (fun d x => setitem (key x) false d) d xs =
  d ++ ((fun x => (key x, false)) <$> xs).
Proof.
  revert d. induction xs as [|x xs IH]; intros d Hnd Hfresh.
  - by rewrite app_nil_r.
  - rewrite fmap_cons, NoDup_cons in Hnd. destruct Hnd as [Hx Hnd].
    cbn [foldl]. rewrite setitem_fresh by (apply Hfresh; left).
    rewrite IH; [by rewrite <- app_assoc|done|].
    intros y Hy. rewrite fmap_app, elem_of_app. intros [Hin|Hin].
    + by apply (Hfresh y); [right|].
    + cbn in Hin. apply list_elem_of_singleton in Hin.
      apply Hx. rewrite <- Hin. by apply list_elem_of_fmap_2.
Qed.

Lemma port_key_inj (base : Z) : Inj (=) (=) (fun w => Py.of_int (base + w)).
Proof.
  intros x y Heq. unfold Py.of_int in Heq.
  apply (inj pretty) in Heq. lia.
Qed.

(** The loop of lines 81-83 builds one entry per index, in order. *)
Lemma used_ports_eq (base n : Z) :
  used_ports base n = (fun w => (Py.of_int (base + w), false)) <$> seqZ 0 n.
Proof.
  unfold used_ports, range.
  rewrite (foldl_setitem_fresh (fun w => Py.of_int (base + w))); [done| |].
  - pose proof (port_key_inj base) as Hinj.
    apply (NoDup_fmap_2 _), NoDup_seqZ.
  - intros x _. cbn. apply not_elem_of_nil.
Qed.

Lemma wp_bind {A B} (m : M A) (k : A -> M B) Q w :
  wp m (wp_then k Q) w -> wp (bind m k) Q w.
Proof.
  unfold wp, wp_then, bind. by destruct (m w) as [[a|e] w'].
Qed.

Lemma wp_ret {A} (a : A) Q w : Q (Returned a) w -> wp (ret a) Q w.
Proof. done. Qed.

Lemma wp_raise {A} (e : exn) (Q : outcome A -> world -> Prop) w :
  Q (Raised e) w -> wp (raise e) Q w.
Proof. done. Qed.

Lemma wp_or_raise {A} (o : option A) (e : exn) Q w :
  match o with Some a => Q (Returned a) w | None => Q (Raised e) w end ->
  wp (or_raise o e) Q w.
Proof. by destruct o. Qed.

Lemma wp_call {A} (ev : event) (ans : option A) (callee : string) Q w :
  match ans with
  | Some a => Q (Returned a) (log ev w)
  | None => Q (Raised (CollaboratorError callee)) (log ev w)
  end ->
  wp (call ev ans callee) Q w.
Proof. by destruct ans. Qed.

Lemma wp_yaml_load_file ext path Q w :
  match files w !! path with
  | None => Q (Raised (FileNotFoundError path)) w
  | Some text =>
      match yaml_load ext text with
      | Some v => Q (Returned v) w
      | None => Q (Raised (CollaboratorError "yaml.load")) w
      end
  end ->
  wp (yaml_load_file ext path) Q w.
Proof.
  unfold wp, yaml_load_file. destruct (files w !! path) as [text|]; [|done].
  by destruct (yaml_load ext text).
Qed.

Lemma wp_json_dump_file ext path d Q w :
  (if open_w_ok ext path
   then Q (Returned tt)
          (World (<[path := json_dumps d]> (files w))
                 (calls w ++ [JsonDump path (json_dumps d)]))
   else Q (Raised (OSError path)) w) ->
  wp (json_dump_file ext path d) Q w.
Proof. unfold wp, json_dump_file. by destruct (open_w_ok ext path). Qed.

(** A loop keeps an invariant [I] as long as its body returns; a body that
    raises ends the loop. *)
Lemma wp_for_each {A} (I : world -> Prop) (xs : list A) (body : A -> M unit) Q w :
  I w ->
  (forall x w', x ∈ xs -> I w' ->
     wp (body x) (fun o w'' =>
       match o with Returned _ => I w'' | Raised e => Q (Raised e) w'' end) w') ->
  (forall w', I w' -> Q (Returned tt) w') ->
  wp (for_each xs body) Q w.
Proof.
  intros HI Hbody Hend. revert w HI.
  induction xs as [|x xs IH]; intros w HI.
  - by apply Hend.
  - cbn [for_each]. apply wp_bind.
    assert (x ∈ x :: xs) as Hx by left.
    specialize (Hbody x w Hx HI) as Hb. unfold wp, wp_then in *.
    destruct (body x w) as [[[]|e] w']; cbn in *; [|done].
    apply IH; [|done]. intros y w'' Hy. apply Hbody. by right.
Qed.


Lemma wp_call_unit (ev : event) (ok : bool) (callee : string) Q w :
  Q (outcome_of ok callee) (log ev w) -> wp (call ev (answer ok) callee) Q w.
Proof. unfold wp. rewrite call_run. by destruct ok. Qed.

Lemma wp_pure {A} (m : M A) Q w :
  pure_stmt m -> (forall o, Q o w) -> wp m Q w.
Proof. intros Hm HQ. unfold wp. rewrite Hm. apply HQ. Qed.

(** *** Statements that leave the world as it is *)

Lemma pure_ret {A} (a : A) : pure_stmt (ret a).
Proof. done. Qed.

Lemma pure_or_raise {A} (o : option A) (e : exn) : pure_stmt (or_raise o e).
Proof. by destruct o. Qed.

Lemma pure_getitem (v : pyval) (key : string) : pure_stmt (getitem v key).
Proof. destruct v; try done. apply pure_or_raise. Qed.

Lemma pure_gt (v : pyval) (n : Z) : pure_stmt (gt v n).
Proof. by destruct v. Qed.

Lemma pure_bind {A B} (m : M A) (k : A -> M B) :
  pure_stmt m -> (forall a, pure_stmt (k a)) -> pure_stmt (bind m k).
Proof.
  intros Hm Hk w. unfold bind. specialize (Hm w).
  destruct (m w) as [[a|e] w']; cbn in *; subst w'; [apply Hk|done].
Qed.

Lemma pure_if {A} (b : bool) (m1 m2 : M A) :
  pure_stmt m1 -> pure_stmt m2 -> pure_stmt (if b then m1 else m2).
Proof. by destruct b. Qed.

Lemma pure_is_model_caching_enabled (api_spec : pyval) :
  pure_stmt (is_model_caching_enabled api_spec).
Proof.
  unfold is_model_caching_enabled.
  repeat first [ apply pure_bind; [|intros ?] | apply pure_getitem
               | apply pure_if | apply pure_ret ].
Qed.

(** *** The calls made since a given world *)

Lemma since_refl P w : since P w w.
Proof. exists []. by rewrite app_nil_r. Qed.

Lemma since_calls P w w' w'' ev :
  since P w w' -> calls w'' = calls w' ++ [ev] -> P ev -> since P w w''.
Proof.
  intros (evs & Hc & HP) Hc' Hev. exists (evs ++ [ev]).
  rewrite Hc', Hc, <- app_assoc. split; [done|].
  apply Forall_app. split; [done|]. by apply Forall_singleton.
Qed.

Lemma since_log P w w' ev : since P w w' -> P ev -> since P w (log ev w').
Proof. intros Hs. by apply (since_calls P w w'). Qed.

Lemma since_emitted {A} P (m : M A) w :
  since P w (m w).2 -> Forall P (emitted m w).
Proof. intros (evs & Hc & HP). by rewrite (emitted_app m w evs). Qed.

Lemma quiet_refl ext w : quiet ext w w.
Proof. apply since_refl. Qed.

Lemma quiet_calls ext w w' w'' ev :
  quiet ext w w' -> calls w'' = calls w' ++ [ev] ->
  is_launch ev = false -> direct_load_ok ext ev = true ->
  quiet ext w w''.
Proof. intros Hq Hc Hl Hd. by apply (since_calls _ w w' w'' ev). Qed.

Lemma quiet_log ext w w' ev :
  quiet ext w w' -> is_launch ev = false -> direct_load_ok ext ev = true ->
  quiet ext w (log ev w').
Proof. intros Hq. by apply (quiet_calls ext w w'). Qed.

Lemma quiet_split ext w w' :
  quiet ext w w' ->
  exists evs, calls w' = calls w ++ evs /\
    Forall (fun ev => is_launch ev = false) evs /\
    Forall (fun ev => direct_load_ok ext ev = true) evs.
Proof.
  intros (evs & Hc & HP). exists evs. split; [done|].
  by apply Forall_and in HP.
Qed.

Lemma main_post_raised ext environ w w' e :
  quiet ext w w' -> main_post ext environ w (Raised e) w'.
Proof.
  intros (evs & Hc & Hl & Hd)%quiet_split. exists evs. split; [done|].
  by constructor.
Qed.

Lemma main_post_direct_load ext environ w w' address models base_paths replace_models :
  quiet ext w w' -> add_models_config_ok ext address = false ->
  main_post ext environ w (Raised (CollaboratorError "add_models_config"))
    (log (AddModelsConfig address models base_paths replace_models) w').
Proof.
  intros (evs & Hc & Hl & Hd)%quiet_split Hfail. eexists. split.
  - cbn. rewrite Hc, <- app_assoc. reflexivity.
  - by constructor.
Qed.

Lemma main_post_launched ext environ w w' ev :
  quiet ext w w' -> launch_call ext environ w ev -> config_complete environ = true ->
  main_post ext environ w (outcome_of (uvicorn_run_ok ext) "uvicorn.run") (log ev w').
Proof.
  intros (evs & Hc & Hl & Hd)%quiet_split Hev Hcfg. eexists. split.
  - cbn. rewrite Hc, <- app_assoc. reflexivity.
  - by constructor.
Qed.

Lemma ports_settled_refl w : ports_settled false w w.
Proof. exists []. by rewrite app_nil_r. Qed.

Lemma ports_settled_calls b w w' w'' ev :
  ports_settled b w w' -> calls w'' = calls w' ++ [ev] ->
  is_port_table_write ev = false ->
  ports_settled b w w''.
Proof.
  intros (evs & Hc & Hb) Hc' Hev. exists (evs ++ [ev]).
  rewrite Hc', Hc, <- app_assoc. split; [done|].
  rewrite existsb_app, Hb. cbn. rewrite Hev. by destruct b.
Qed.

Lemma ports_settled_log b w w' ev :
  ports_settled b w w' -> is_port_table_write ev = false ->
  ports_settled b w (log ev w').
Proof. intros Hs. by apply (ports_settled_calls b w w'). Qed.

Lemma ports_settled_write w w' w'' text :
  ports_settled false w w' ->
  calls w'' = calls w' ++ [JsonDump "/run/used_ports.json" text] ->
  ports_settled true w w''.
Proof.
  intros (evs & Hc & Hb) Hc'. eexists.
  rewrite Hc', Hc, <- app_assoc. split; [done|].
  rewrite existsb_app, Hb. reflexivity.
Qed.

(** *** The side reloading, case by case *)

Lemma main_side_reloading_cached ext environ api_spec kind model_dir :
  main_side_reloading ext environ api_spec kind true model_dir = ret tt.
Proof. by destruct kind. Qed.

Lemma main_side_reloading_python ext environ api_spec model_dir :
  main_side_reloading ext environ api_spec PythonPredictorType false model_dir =
  call (FileBasedModelsTreeUpdaterStart 10 api_spec model_dir)
       (answer (file_updater_ok ext)) "FileBasedModelsTreeUpdater".
Proof. reflexivity. Qed.

Lemma main_side_reloading_onnx ext environ api_spec model_dir :
  main_side_reloading ext environ api_spec ONNXPredictorType false model_dir =
  call (FileBasedModelsTreeUpdaterStart 10 api_spec model_dir)
       (answer (file_updater_ok ext)) "FileBasedModelsTreeUpdater".
Proof. reflexivity. Qed.

Lemma main_side_reloading_tensorflow ext environ api_spec model_dir :
  main_side_reloading ext environ api_spec TensorFlowPredictorType false model_dir =
  call (TFSModelLoaderStart 10 api_spec
          (os_getenv_or environ "CORTEX_TF_SERVING_HOST" "localhost" +:+ ":" +:+
           os_getenv_or environ "CORTEX_TF_BASE_SERVING_PORT" "9000")
          model_dir model_dir)
       (answer (tfs_loader_ok ext)) "TFSModelLoader".
Proof. reflexivity. Qed.

Lemma main_side_reloading_neuron ext environ api_spec model_dir :
  main_side_reloading ext environ api_spec TensorFlowNeuronPredictorType false model_dir =
  load_tensorflow_serving_models ext environ.
Proof. reflexivity. Qed.

(** ** Symbolic execution of [main] *)

(** One step through a statement that makes no call. *)
Ltac wp_pure_step :=
  lazymatch goal with
  | |- wp (is_model_caching_enabled _) _ _ =>
      apply wp_pure; [apply pure_is_model_caching_enabled|intros [?|?]]
  | |- wp (bind (getitem _ _) _) _ _ =>
      apply wp_pure;
      [repeat first [ apply pure_bind; [|intros ?] | apply pure_getitem | apply pure_gt ]
      |intros [?|?]]
  | |- wp (bind _ _) _ _ => apply wp_bind
  | |- wp (ret _) _ _ => apply wp_ret
  | |- wp (raise _) _ _ => apply wp_raise
  | |- wp (os_environ _ _) _ _ => unfold os_environ
  | |- wp (int _) _ _ => unfold int
  | |- wp (or_raise ?o _) _ _ =>
      apply wp_or_raise;
      first [ lazymatch goal with H : o = _ |- _ => rewrite H end
            | destruct o eqn:? ]
  | |- wp (yaml_load_file _ _) _ _ =>
      apply wp_yaml_load_file;
      let t := fresh "text" in
      destruct (files _ !! _) as [t|] eqn:?; [destruct (yaml_load _ t) eqn:?|]
  | |- wp (main_used_ports _ _) _ _ => unfold main_used_ports, os_getenv
  | |- wp (main_uvicorn_run _ _ _) _ _ => unfold main_uvicorn_run
  | |- wp (load_tensorflow_serving_models _ _) _ _ =>
      unfold load_tensorflow_serving_models, os_getenv
  | |- wp (main_side_reloading _ _ _ _ true _) _ _ =>
      rewrite main_side_reloading_cached
  | |- wp (main_side_reloading _ _ _ ?kind false _) _ _ =>
      destruct kind;
      rewrite ?main_side_reloading_python, ?main_side_reloading_onnx,
        ?main_side_reloading_tensorflow, ?main_side_reloading_neuron
  | |- wp (if ?b then _ else _) _ _ =>
      lazymatch b with
      | true => cbv iota
      | false => cbv iota
      | negb true => cbn [negb]
      | negb false => cbn [negb]
      | negb ?c => destruct c eqn:?; cbn [negb]
      | _ => first [ lazymatch goal with H : b = _ |- _ => rewrite H end
                   | destruct b eqn:? ]
      end
  | |- wp_then _ _ _ _ => unfold wp_then at 1; cbv beta iota
  end.

Ltac launch_call_tac :=
  do 6 eexists;
  repeat match goal with
         | |- _ /\ _ => split
         | |- env_int _ _ = Some _ => eapply env_int_intro; eassumption
         | |- _ => eassumption
         | |- _ = _ => reflexivity
         end.

Ltac config_complete_tac :=
  unfold config_complete;
  repeat match goal with
         | H : truthy _ = _ |- _ => rewrite H
         end;
  repeat match goal with
         | |- _ && _ = true => apply andb_true_intro; split
         | |- present ?o = true =>
             let z := fresh in
             assert (exists z, o = Some z) as [z ->]; [eexists|reflexivity]
         | |- env_int _ _ = Some _ => eapply env_int_intro; eassumption
         | |- _ => eassumption
         | |- true = true => reflexivity
         end.

(** One step through a call, keeping [quiet]. *)
Ltac quiet_step :=
  lazymatch goal with
  | |- wp (makedirs _ _) _ _ => unfold makedirs
  | Hq : quiet ?ext ?w ?w' |- wp (call (UvicornRun _ _ _ _ _ _ _ _) (answer _) _) _ ?w' =>
      apply wp_call_unit; apply main_post_launched;
      [exact Hq | solve [launch_call_tac] | solve [config_complete_tac]]
  | Hq : quiet ?ext ?w ?w' |- wp (for_each _ _) _ ?w' =>
      apply (wp_for_each (quiet ext w));
      [ exact Hq
      | let Hq' := fresh "Hq" in
        let Hok := fresh "Hok" in
        intros ? ? _ Hq'; unfold add_models_config; apply wp_call;
        destruct (add_models_config_ok ext _) eqn:Hok; cbn [answer wp_then];
        [ apply quiet_log; [exact Hq' | reflexivity | exact Hok]
        | apply main_post_direct_load; [exact Hq' | exact Hok] ]
      | clear Hq; intros ? Hq ]
  | Hq : quiet ?ext ?w ?w' |- wp (call ?ev (answer ?ok) _) _ ?w' =>
      apply wp_call;
      apply (quiet_log ext w w' ev) in Hq; [|reflexivity|reflexivity];
      destruct ok eqn:?; cbn [answer]
  | Hq : quiet ?ext ?w ?w' |- wp (call ?ev ?ans _) _ ?w' =>
      apply wp_call;
      apply (quiet_log ext w w' ev) in Hq; [|reflexivity|reflexivity];
      destruct ans eqn:?
  | Hq : quiet ?ext ?w ?w' |- wp (json_dump_file _ ?path ?d) _ ?w' =>
      apply wp_json_dump_file; destruct (open_w_ok _ _) eqn:?;
      [apply (quiet_calls ext w w'
                (World (<[path := json_dumps d]> (files w'))
                       (calls w' ++ [JsonDump path (json_dumps d)]))
                (JsonDump path (json_dumps d))) in Hq;
       [|reflexivity|reflexivity|reflexivity]|]
  | Hq : quiet _ _ ?w' |- main_post _ _ _ (Raised _) ?w' =>
      by apply main_post_raised
  end.

(** Every run of [main] ends in one of the three ways of [main_ends]. *)
Lemma main_run ext environ w : wp (main ext environ) (main_post ext environ w) w.
Proof.
  pose proof (quiet_refl ext w) as Hq.
  unfold main, os_getenv.
  repeat (first [wp_pure_step | quiet_step]).
Qed.

Ltac rewrite_facts :=
  repeat match goal with
         | H : _ !! _ = _ |- _ => rewrite H
         | H : Py.to_int _ = _ |- _ => rewrite H
         | H : yaml_load _ _ = _ |- _ => rewrite H
         | H : truthy _ = _ |- _ => rewrite H
         | H : wait_neuron_rtd_ok _ = _ |- _ => rewrite H
         | H : open_w_ok _ _ = _ |- _ => rewrite H
         end.

(** The value of [writes_port_table], from the facts met on the way. *)
Ltac ports_cond_tac :=
  unfold writes_port_table, env_int;
  repeat (progress (rewrite_facts; cbn [present mbind option_bind andb]));
  rewrite ?andb_false_r; reflexivity.

Ltac ports_done :=
  lazymatch goal with
  | Hs : ports_settled ?b ?w ?w' |- ports_settled ?B ?w ?w' =>
      first [ exact Hs
            | replace B with b; [exact Hs | symmetry; ports_cond_tac] ]
  end.

(** One step through a call, keeping [ports_settled]. *)
Ltac ports_step :=
  lazymatch goal with
  | |- wp (makedirs _ _) _ _ => unfold makedirs
  | Hs : ports_settled ?b ?w ?w' |- wp (call ?ev ?ans _) _ ?w' =>
      apply wp_call;
      apply (ports_settled_log b w w' ev) in Hs; [|reflexivity];
      lazymatch ans with
      | answer ?ok => destruct ok eqn:?; cbn [answer]
      | _ => destruct ans eqn:?
      end
  | Hs : ports_settled false ?w ?w' |- wp (json_dump_file _ ?path ?d) _ ?w' =>
      apply wp_json_dump_file; destruct (open_w_ok _ _) eqn:?;
      [apply (ports_settled_write w w'
                (World (<[path := json_dumps d]> (files w'))
                       (calls w' ++ [JsonDump path (json_dumps d)]))
                (json_dumps d)) in Hs; [|reflexivity]|]
  | Hs : ports_settled ?b ?w ?w' |- wp (for_each _ _) _ ?w' =>
      apply (wp_for_each (ports_settled b w));
      [ exact Hs
      | let Hs' := fresh "Hs" in
        clear Hs; intros ? ? _ Hs'; unfold add_models_config; apply wp_call;
        lazymatch goal with
        | |- context [log ?ev _] =>
            apply (ports_settled_log b _ _ ev) in Hs'; [|reflexivity]
        end;
        destruct (add_models_config_ok _ _) eqn:?; cbn [answer wp_then];
        [ exact Hs' | ports_done ]
      | clear Hs; intros ? Hs ]
  | |- ports_settled _ _ _ => ports_done
  end.

(** In every run of [main], the table of ports is written exactly under the
    conditions of [writes_port_table]. *)
Lemma main_ports_run ext environ w :
  wp (main ext environ)
     (fun _ w' => ports_settled (writes_port_table ext environ w) w w') w.
Proof.
  pose proof (ports_settled_refl w) as Hs.
  unfold main, os_getenv.
  repeat (first [ lazymatch goal with
                  | |- wp (bind (os_environ _ "CORTEX_PROVIDER") _) _ _ => fail
                  | |- _ => idtac
                  end; first [wp_pure_step | ports_step] ]).
  all: lazymatch goal with
       | Hs : ports_settled ?b _ _ |- _ =>
           assert (writes_port_table ext environ w = b) as -> by ports_cond_tac
       end.
  all: repeat (first [wp_pure_step | ports_step]).
Qed.

(** Whatever the environment and the answers, [load_tensorflow_serving_models]
    only makes direct-load calls, each with the full list of names and paths
    that the environment gives. *)
Lemma load_tensorflow_serving_models_calls ext environ w :
  since (direct_load_event environ) w (load_tensorflow_serving_models ext environ w).2.
Proof.
  change (wp (load_tensorflow_serving_models ext environ)
            (fun _ w' => since (direct_load_event environ) w w') w).
  pose proof (since_refl (direct_load_event environ) w) as Hs.
  unfold load_tensorflow_serving_models, os_getenv.
  repeat first [ wp_pure_step | exact Hs ].
  all: apply (wp_for_each (since (direct_load_event environ) w)); [exact Hs| |done].
  all: intros i w' Hi%elem_of_seqZ Hs'; unfold add_models_config; apply wp_call.
  all: match goal with
       | H : since _ _ ?w0 |- context [log ?ev ?w0] =>
           apply (since_log _ _ _ ev) in H
       end.
  all: try by destruct (answer _).
  all: match goal with
       | Hd : _ !! "CORTEX_MODEL_DIR" = Some ?d,
         Hm : _ !! "CORTEX_MODELS" = Some ?m,
         Hp : Py.to_int (os_getenv_or _ _ _) = Some ?p,
         Hi : 0 <= ?i < _ |- direct_load_event _ _ =>
           exists d, m, p, i; repeat split; [exact Hd|exact Hm|exact Hp|lia]
       end.
Qed.

(** ** Sample evaluations *)

Example to_int_samples :
  Py.to_int " 9000 " = Some 9000 /\ Py.to_int "-1_0" = Some (-10) /\
  Py.to_int "007" = Some 7 /\ Py.to_int "" = None /\ Py.to_int "1__0" = None /\
  Py.to_int "12a" = None /\ Py.to_int "1 2" = None /\ Py.to_int "+5" = Some 5 /\
  Py.to_int "- 5" = None /\
  Py.to_int (String (ascii_of_nat 9) "5") = Some 5 /\
  Py.to_int (String (ascii_of_nat 28) "5") = None /\
  Py.strip (String (ascii_of_nat 28) "5") = "5".
Proof. repeat split; reflexivity. Qed.

Example split_strip_samples :
  Py.split "," "" = [""] /\
  Py.strip <$> Py.split "," " a , b b ," = ["a"; "b b"; ""] /\
  Py.path_join "/mnt/model/" "a" = "/mnt/model/a" /\
  Py.path_join "/mnt/model" "/a" = "/a".
Proof. repeat split; reflexivity. Qed.

Example main_without_serving_port :
  (main (sample_ext PythonPredictorType [])
        (delete "CORTEX_SERVING_PORT" sample_environ) sample_world).1 =
  Raised (KeyError "CORTEX_SERVING_PORT").
Proof. vm_compute. reflexivity. Qed.

Example main_with_malformed_serving_port :
  (main (sample_ext PythonPredictorType [])
        (<["CORTEX_SERVING_PORT" := "http"]> sample_environ) sample_world).1 =
  Raised (ValueError "http").
Proof. vm_compute. reflexivity. Qed.

Example main_without_models :
  (main (sample_ext TensorFlowNeuronPredictorType [])
        (delete "CORTEX_MODELS" sample_environ) sample_world).1 =
  Raised (KeyError "CORTEX_MODELS").
Proof. vm_compute. reflexivity. Qed.

(** * Properties of the start-up *)

(** C1. The side reloading started by [main] (lines 105-129) follows the
    decision table: with caching enabled nothing is started and nothing is
    loaded, whatever the predictor type; without caching, a Python or ONNX
    predictor starts one [FileBasedModelsTreeUpdater], a TensorFlow predictor
    starts one [TFSModelLoader], and a TensorFlowNeuron predictor runs the
    one-shot [load_tensorflow_serving_models]: when the model directory, the
    models, the base port and a number of processes [n >= 1] are read, the
    calls it makes start with the direct load on the first backing server,
    and in every case it makes direct-load calls only and starts no
    daemon. *)
Theorem C1_startup_strategy_table ext environ api_spec model_dir w :
  (forall kind,
     main_side_reloading ext environ api_spec kind true model_dir w = (Returned tt, w)) /\
  main_side_reloading ext environ api_spec PythonPredictorType false model_dir w =
    (outcome_of (file_updater_ok ext) "FileBasedModelsTreeUpdater",
     log (FileBasedModelsTreeUpdaterStart 10 api_spec model_dir) w) /\
  main_side_reloading ext environ api_spec ONNXPredictorType false model_dir w =
    (outcome_of (file_updater_ok ext) "FileBasedModelsTreeUpdater",
     log (FileBasedModelsTreeUpdaterStart 10 api_spec model_dir) w) /\
  main_side_reloading ext environ api_spec TensorFlowPredictorType false model_dir w =
    (outcome_of (tfs_loader_ok ext) "TFSModelLoader",
     log (TFSModelLoaderStart 10 api_spec
            (os_getenv_or environ "CORTEX_TF_SERVING_HOST" "localhost" +:+ ":" +:+
             os_getenv_or environ "CORTEX_TF_BASE_SERVING_PORT" "9000")
            model_dir model_dir) w) /\
  main_side_reloading ext environ api_spec TensorFlowNeuronPredictorType false model_dir w =
    load_tensorflow_serving_models ext environ w /\
  (forall dir models port n,
     environ !! "CORTEX_MODEL_DIR" = Some dir ->
     environ !! "CORTEX_MODELS" = Some models ->
     Py.to_int (os_getenv_or environ "CORTEX_TF_BASE_SERVING_PORT" "9000") = Some port ->
     num_processes environ = Some n ->
     1 <= n ->
     exists rest,
       emitted (main_side_reloading ext environ api_spec TensorFlowNeuronPredictorType
                  false model_dir) w =
       AddModelsConfig
         (tfs_host environ +:+ ":" +:+ Py.of_int port)
         (Py.strip <$> Py.split "," models)
         (Py.path_join dir <$> (Py.strip <$> Py.split "," models))
         false :: rest) /\
  Forall (fun ev => is_direct_load ev = true /\ is_daemon_start ev = false)
    (emitted (main_side_reloading ext environ api_spec TensorFlowNeuronPredictorType
                false model_dir) w).
Proof.
  split; [|split; [|split; [|split; [|split; [|split]]]]].
  - intros kind. by rewrite main_side_reloading_cached.
  - rewrite main_side_reloading_python, call_run. by destruct (file_updater_ok ext).
  - rewrite main_side_reloading_onnx, call_run. by destruct (file_updater_ok ext).
  - rewrite main_side_reloading_tensorflow, call_run. by destruct (tfs_loader_ok ext).
  - by rewrite main_side_reloading_neuron.
  - intros dir models port n Hdir Hmodels Hport Hn Hpos.
    rewrite main_side_reloading_neuron.
    destruct (load_tensorflow_serving_models_first ext environ dir models port n
                Hdir Hmodels Hport Hn w Hpos) as [rest Hrest].
    exists rest. rewrite Hrest. unfold direct_load_call, tfs_address.
    by rewrite Z.add_0_r.
  - rewrite main_side_reloading_neuron.
    eapply Forall_impl; [apply since_emitted, load_tensorflow_serving_models_calls|].
    intros ev (d & m & p & i & _ & _ & _ & _ & ->). done.
Qed.

(** C1, at the sample run of a TensorFlowNeuron predictor without caching,
    with two processes from port 9000 on host [tfs]: the calls made start
    with the direct load of both models on [tfs:9000]. *)
Lemma C1_startup_strategy_table_witness :
  exists rest,
    emitted (main_side_reloading (sample_ext TensorFlowNeuronPredictorType [])
               sample_environ (sample_api_spec PyNone PyNone)
               TensorFlowNeuronPredictorType false "/mnt/model") sample_world =
    AddModelsConfig "tfs:9000" ["iris"; "resnet50"]
      ["/mnt/model/iris"; "/mnt/model/resnet50"] false :: rest.
Proof.
  destruct (C1_startup_strategy_table (sample_ext TensorFlowNeuronPredictorType [])
              sample_environ (sample_api_spec PyNone PyNone) "/mnt/model" sample_world)
    as (_ & _ & _ & _ & _ & Hfirst & _).
  exact (Hfirst "/mnt/model" "iris, resnet50" 9000 2
           eq_refl eq_refl eq_refl eq_refl ltac:(lia)).
Defined.

(** C2. With a TensorFlowNeuron predictor and no caching, when the model
    directory, the models, the base port [port] and the number of processes
    [n] are read and every call succeeds, the calls made are exactly one
    [add_models_config] per index [i] of [0..n-1], in order, to
    [host:(port+i)], each with every model name, every path and
    [replace_models=False]. *)
Theorem C2_direct_load_calls ext environ api_spec dir0 model_dir models port n w :
  environ !! "CORTEX_MODEL_DIR" = Some model_dir ->
  environ !! "CORTEX_MODELS" = Some models ->
  Py.to_int (os_getenv_or environ "CORTEX_TF_BASE_SERVING_PORT" "9000") = Some port ->
  num_processes environ = Some n ->
  (forall i, 0 <= i < n ->
     add_models_config_ok ext (tfs_address (tfs_host environ) port i) = true) ->
  let run := main_side_reloading ext environ api_spec TensorFlowNeuronPredictorType
               false dir0 in
  (run w).1 = Returned tt /\
  emitted run w =
    (fun i => AddModelsConfig
                (tfs_host environ +:+ ":" +:+ Py.of_int (port + i))
                (Py.strip <$> Py.split "," models)
                (Py.path_join model_dir <$> (Py.strip <$> Py.split "," models))
                false) <$> seqZ 0 n.
Proof.
  intros Hdir Hmodels Hport Hn Hok run. subst run.
  rewrite main_side_reloading_neuron.
  pose proof (load_tensorflow_serving_models_ok ext environ model_dir models port n
                Hdir Hmodels Hport Hn w Hok) as Hrun.
  split; [by rewrite Hrun|].
  apply emitted_app. by rewrite Hrun.
Qed.

(** C2, at two processes from port 9000 on host [tfs]: two calls, to
    [tfs:9000] and to [tfs:9001], each with both models. *)
Lemma C2_direct_load_calls_witness :
  let run := main_side_reloading (sample_ext TensorFlowNeuronPredictorType [])
               sample_environ (sample_api_spec PyNone PyNone)
               TensorFlowNeuronPredictorType false "/mnt/model" in
  (run sample_world).1 = Returned tt /\
  emitted run sample_world =
    [ AddModelsConfig "tfs:9000" ["iris"; "resnet50"]
        ["/mnt/model/iris"; "/mnt/model/resnet50"] false;
      AddModelsConfig "tfs:9001" ["iris"; "resnet50"]
        ["/mnt/model/iris"; "/mnt/model/resnet50"] false ].
Proof.
  exact (C2_direct_load_calls (sample_ext TensorFlowNeuronPredictorType [])
           sample_environ (sample_api_spec PyNone PyNone) "/mnt/model"
           "/mnt/model" "iris, resnet50" 9000 2 sample_world
           eq_refl eq_refl eq_refl eq_refl (fun _ _ => eq_refl)).
Defined.

(** C3. When [CORTEX_MULTIPLE_TF_SERVERS] is set and the base port [base]
    and the number of processes [n >= 1] are read, the table built by lines
    81-83 has exactly the keys [str(base)], ..., [str(base+n-1)], each once
    and in this order, so [n] entries, every value [False]; and when the
    file can be opened, [/run/used_ports.json] holds its dump afterwards,
    whatever it held before. *)
Theorem C3_port_table ext environ base n w :
  truthy (environ !! "CORTEX_MULTIPLE_TF_SERVERS") = true ->
  env_int environ "CORTEX_TF_BASE_SERVING_PORT" = Some base ->
  env_int environ "CORTEX_PROCESSES_PER_REPLICA" = Some n ->
  1 <= n ->
  open_w_ok ext "/run/used_ports.json" = true ->
  let table := used_ports base n in
  table = (fun i => (Py.of_int (base + i), false)) <$> seqZ 0 n /\
  NoDup table.*1 /\
  length table = Z.to_nat n /\
  (forall key, key ∈ table.*1 <-> exists i, 0 <= i < n /\ key = Py.of_int (base + i)) /\
  (forall key v, (key, v) ∈ table -> v = false) /\
  main_used_ports ext environ w =
    (Returned tt,
     World (<["/run/used_ports.json" := json_dumps table]> (files w))
           (calls w ++ [JsonDump "/run/used_ports.json" (json_dumps table)])) /\
  files (main_used_ports ext environ w).2 !! "/run/used_ports.json" =
    Some (json_dumps table).
Proof.
  intros Hflag Hbase Hn Hpos Hopen table.
  assert (table = (fun i => (Py.of_int (base + i), false)) <$> seqZ 0 n) as Htable
    by apply used_ports_eq.
  assert (table.*1 = (fun i => Py.of_int (base + i)) <$> seqZ 0 n) as Hkeys.
  { rewrite Htable, <- list_fmap_compose. done. }
  assert (main_used_ports ext environ w =
    (Returned tt,
     World (<["/run/used_ports.json" := json_dumps table]> (files w))
           (calls w ++ [JsonDump "/run/used_ports.json" (json_dumps table)]))) as Hrun.
  { unfold main_used_ports, os_getenv. rewrite Hflag.
    unfold env_int in Hbase, Hn.
    destruct (environ !! "CORTEX_TF_BASE_SERVING_PORT") as [s1|] eqn:H1; [|done].
    destruct (environ !! "CORTEX_PROCESSES_PER_REPLICA") as [s2|] eqn:H2; [|done].
    cbn in Hbase, Hn.
    unfold bind, os_environ, int, or_raise, ret, json_dump_file.
    rewrite H1, Hbase, H2, Hn, Hopen. reflexivity. }
  split; [done|]. split; [|split; [|split; [|split; [|split]]]].
  - rewrite Hkeys. pose proof (port_key_inj base) as Hinj.
    apply (NoDup_fmap_2 _), NoDup_seqZ.
  - by rewrite Htable, length_fmap, length_seqZ.
  - intros key. rewrite Hkeys, list_elem_of_fmap. split.
    + intros (i & -> & Hi%elem_of_seqZ). exists i. split; [lia|done].
    + intros (i & Hi & ->). exists i. split; [done|]. apply elem_of_seqZ. lia.
  - intros key v. rewrite Htable, list_elem_of_fmap.
    intros (i & Heq & _). by inversion Heq.
  - done.
  - rewrite Hrun. cbn. apply lookup_insert_eq.
Qed.

(** C3, at base port 9000 and three processes, over a stale file. *)
Lemma C3_port_table_witness :
  let environ := <["CORTEX_PROCESSES_PER_REPLICA" := "3"]> sample_environ in
  let w := World {[ "/run/used_ports.json" := "stale" ]} [] in
  used_ports 9000 3 = [("9000", false); ("9001", false); ("9002", false)] /\
  files (main_used_ports (sample_ext PythonPredictorType []) environ w).2
    !! "/run/used_ports.json" = Some (json_dumps (used_ports 9000 3)).
Proof.
  intros environ w.
  destruct (C3_port_table (sample_ext PythonPredictorType []) environ 9000 3 w)
    as (Htable & _ & _ & _ & _ & _ & Hfile).
  - reflexivity.
  - reflexivity.
  - reflexivity.
  - lia.
  - reflexivity.
  - split; [exact Htable|exact Hfile].
Defined.

(** C4, as stated, fails: with no [cache_size] under [predictor.models] the
    lookup raises [KeyError] instead of turning caching off. *)
Lemma C4_counterexample :
  caching_mode_spec api_spec_without_cache_size = false /\
  is_model_caching_enabled api_spec_without_cache_size sample_world =
    (Raised (KeyError "cache_size"), sample_world) /\
  is_model_caching_enabled api_spec_without_cache_size sample_world <>
    (Returned (caching_mode_spec api_spec_without_cache_size), sample_world).
Proof.
  split; [reflexivity|]. split; [reflexivity|].
  vm_compute. discriminate.
Qed.

(** C4, amended.  For an API spec with a [predictor.models] dictionary [m]:
    when [cache_size] and [disk_cache_size] are both keys of [m], caching is
    enabled iff both values are not [None]; when [cache_size] is missing the
    lookup raises [KeyError]; when [cache_size] is there and not [None] and
    [disk_cache_size] is missing the lookup raises [KeyError]; when
    [cache_size] is [None] caching is disabled and [disk_cache_size] is not
    looked up.  The world is left as it is. *)
Theorem C4_caching_enabled (d p m : gmap string pyval) w :
  d !! "predictor" = Some (PyDict p) ->
  p !! "models" = Some (PyDict m) ->
  is_model_caching_enabled (PyDict d) w =
    (match m !! "cache_size", m !! "disk_cache_size" with
     | Some cache_size, Some disk_cache_size =>
         Returned (is_not_None cache_size && is_not_None disk_cache_size)
     | Some cache_size, None =>
         if is_not_None cache_size then Raised (KeyError "disk_cache_size")
         else Returned false
     | None, _ => Raised (KeyError "cache_size")
     end, w).
Proof.
  intros Hp Hm.
  unfold is_model_caching_enabled, bind, getitem, or_raise, ret, raise.
  rewrite Hp. cbv beta iota. rewrite Hm. cbv beta iota.
  destruct (m !! "cache_size") as [c|]; cbv beta iota;
    [|by destruct (m !! "disk_cache_size")].
  destruct (is_not_None c); cbv beta iota; [|by destruct (m !! "disk_cache_size")].
  by destruct (m !! "disk_cache_size").
Qed.

(** C4 amended, at a spec with both sizes set. *)
Lemma C4_caching_enabled_witness :
  is_model_caching_enabled (sample_api_spec (PyInt 2) (PyStr "1Gi")) sample_world =
    (Returned true, sample_world).
Proof.
  exact (C4_caching_enabled
           {[ "predictor" :=
                PyDict {[ "processes_per_replica" := PyInt 2;
                          "models" := PyDict {[ "cache_size" := PyInt 2;
                                                "disk_cache_size" := PyStr "1Gi" ]} ]} ]}
           {[ "processes_per_replica" := PyInt 2;
              "models" := PyDict {[ "cache_size" := PyInt 2;
                                    "disk_cache_size" := PyStr "1Gi" ]} ]}
           {[ "cache_size" := PyInt 2; "disk_cache_size" := PyStr "1Gi" ]}
           sample_world eq_refl eq_refl).
Defined.

Lemma app_cons_eq_snoc {A} (pre post evs : list A) (x y : A) :
  pre ++ x :: post = evs ++ [y] ->
  (post = [] /\ pre = evs /\ x = y) \/ x ∈ evs.
Proof.
  destruct post as [|z post _] using rev_ind; intros Heq.
  - apply (app_inj_tail pre evs x y) in Heq as [-> ->]. by left.
  - right. change (pre ++ x :: post ++ [z]) with (pre ++ (x :: post) ++ [z]) in Heq.
    rewrite app_assoc in Heq.
    apply app_inj_tail in Heq as [<- _].
    apply elem_of_app. right. left.
Qed.

(** The calls and the outcome of a run of [main], in one of the three
    shapes. *)
Lemma main_ends_emitted ext environ w :
  main_ends ext environ w (main ext environ w).1 (emitted (main ext environ) w).
Proof.
  destruct (main_run ext environ w) as (evs & Hc & Hends).
  by rewrite (emitted_app _ w evs).
Qed.

(** C5. In the direct load, when the call of index [i] is the first to
    fail, the function raises at once: the log holds the calls of indices
    [0..i], each once and in order, and nothing after them.  And in any run
    of [main], a direct-load call that fails is the last call made, [main]
    ends with that error, the calls made before it are still in the log, and
    [uvicorn.run] is not among the calls. *)
Theorem C5_direct_load_failure ext environ w :
  (forall model_dir models port n i,
     environ !! "CORTEX_MODEL_DIR" = Some model_dir ->
     environ !! "CORTEX_MODELS" = Some models ->
     Py.to_int (os_getenv_or environ "CORTEX_TF_BASE_SERVING_PORT" "9000") = Some port ->
     num_processes environ = Some n ->
     0 <= i < n ->
     (forall j, 0 <= j < i ->
        add_models_config_ok ext (tfs_address (tfs_host environ) port j) = true) ->
     add_models_config_ok ext (tfs_address (tfs_host environ) port i) = false ->
     load_tensorflow_serving_models ext environ w =
       (Raised (CollaboratorError "add_models_config"),
        World (files w)
              (calls w ++
               (direct_load_call environ model_dir models port <$> seqZ 0 (i + 1))))) /\
  (forall pre address models base_paths replace_models post,
     emitted (main ext environ) w =
       pre ++ AddModelsConfig address models base_paths replace_models :: post ->
     add_models_config_ok ext address = false ->
     post = [] /\
     (main ext environ w).1 = Raised (CollaboratorError "add_models_config") /\
     Forall (fun ev => direct_load_ok ext ev = true) pre /\
     Forall (fun ev => is_launch ev = false) (emitted (main ext environ) w)).
Proof.
  split.
  - intros model_dir models port n i Hdir Hmodels Hport Hn Hi Hok Hfail.
    by apply (load_tensorflow_serving_models_fail ext environ model_dir models port n).
  - intros pre address models base_paths replace_models post Hev Hfail.
    pose proof (main_ends_emitted ext environ w) as Hends.
    rewrite Hev in Hends |- *.
    assert (forall evs : list event,
              Forall (fun ev => direct_load_ok ext ev = true) evs ->
              AddModelsConfig address models base_paths replace_models ∉ evs) as Hnot.
    { intros evs Hall Hin. rewrite Forall_forall in Hall.
      apply Hall in Hin. cbn in Hin. congruence. }
    inversion Hends as [e evs Hl Hd He Hevs|evs a ms ps r Hl Hd Hf He Hevs
                       |evs ev Hl Hd Hlaunch Hcfg He Hevs].
    + exfalso. apply (Hnot _ Hd). apply elem_of_app. right. left.
    + symmetry in Hevs. apply app_cons_eq_snoc in Hevs as [(-> & -> & Heq)|Hin].
      * repeat split; [done|].
        apply Forall_app. split; [done|]. by apply Forall_singleton.
      * by destruct (Hnot evs Hd).
    + symmetry in Hevs. apply app_cons_eq_snoc in Hevs as [(_ & _ & <-)|Hin].
      * destruct Hlaunch as (? & ? & ? & ? & ? & ? & _ & _ & _ & _ & _ & _ & Heq).
        discriminate Heq.
      * by destruct (Hnot evs Hd).
Qed.

(** C5, at two backing servers of which the second is down. *)
Lemma C5_direct_load_failure_witness :
  let ext := sample_ext TensorFlowNeuronPredictorType ["tfs:9001"] in
  load_tensorflow_serving_models ext sample_environ sample_world =
    (Raised (CollaboratorError "add_models_config"),
     World (files sample_world)
       [ AddModelsConfig "tfs:9000" ["iris"; "resnet50"]
           ["/mnt/model/iris"; "/mnt/model/resnet50"] false;
         AddModelsConfig "tfs:9001" ["iris"; "resnet50"]
           ["/mnt/model/iris"; "/mnt/model/resnet50"] false ]) /\
  (main ext sample_environ sample_world).1 =
    Raised (CollaboratorError "add_models_config") /\
  Forall (fun ev => is_launch ev = false) (emitted (main ext sample_environ) sample_world).
Proof.
  intros ext.
  destruct (C5_direct_load_failure ext sample_environ sample_world) as [Hload Hmain].
  split.
  - apply (Hload "/mnt/model" "iris, resnet50" 9000 2 1); try reflexivity.
    + lia.
    + intros j Hj. replace j with 0 by lia. reflexivity.
  - destruct (Hmain
        [ JsonDump "/run/used_ports.json" (json_dumps (used_ports 9000 2));
          GetSpec "aws" "s3://bucket/apis/iris/spec.msgpack" None None None;
          Makedirs "/run/cron"; Makedirs "/tmp/cron";
          AddModelsConfig "tfs:9000" ["iris"; "resnet50"]
            ["/mnt/model/iris"; "/mnt/model/resnet50"] false ]
        "tfs:9001" ["iris"; "resnet50"]
        ["/mnt/model/iris"; "/mnt/model/resnet50"] false [])
      as (_ & Hout & _ & Hlaunch).
    + vm_compute. reflexivity.
    + reflexivity.
    + split; [exact Hout|exact Hlaunch].
Defined.

(** C6. The comment on the gate of lines 76-78 reads "strictly for
    Inferentia", and the gate tests [CORTEX_MULTIPLE_TF_SERVERS] alone: it
    looks neither at [uses_inferentia] nor at the predictor type, which is
    known at line 95 only.  So in the sample run for a Python predictor,
    with no [CORTEX_ACTIVE_NEURON] in the environment and the flag set, the
    table of ports is written all the same: [/run/used_ports.json] holds the
    ports 9000 and 9001 afterwards. *)
Theorem C6_port_table_without_inferentia :
  sample_environ !! "CORTEX_ACTIVE_NEURON" = None /\
  truthy (sample_environ !! "CORTEX_MULTIPLE_TF_SERVERS") = true /\
  run_kind (sample_ext PythonPredictorType []) sample_environ = Some PythonPredictorType /\
  PythonPredictorType <> TensorFlowNeuronPredictorType /\
  port_table_written (sample_ext PythonPredictorType []) sample_environ sample_world = true /\
  files (main (sample_ext PythonPredictorType []) sample_environ sample_world).2
    !! "/run/used_ports.json" = Some (json_dumps (used_ports 9000 2)).
Proof.
  split; [reflexivity|]. split; [reflexivity|]. split; [reflexivity|].
  split; [discriminate|]. split; vm_compute; reflexivity.
Qed.

(** A run of [main] writes the table of ports iff the conditions of
    [writes_port_table] hold. *)
Lemma port_table_written_iff ext environ w :
  port_table_written ext environ w = writes_port_table ext environ w.
Proof.
  destruct (main_ports_run ext environ w) as (evs & Hc & Hb).
  unfold port_table_written. by rewrite (emitted_app _ w evs).
Qed.

(** C7. In every run of [main], a call to [uvicorn.run] is made with host
    [0.0.0.0], with the port, the number of workers, the concurrency limit
    and the backlog that [int] reads from [CORTEX_SERVING_PORT],
    [CORTEX_PROCESSES_PER_REPLICA], [CORTEX_MAX_PROCESS_CONCURRENCY] and
    [CORTEX_SO_MAX_CONN], and with the logging configuration loaded from
    [log_config.yaml]; and it is the last call of the run. *)
Theorem C7_launch_arguments ext environ w k ev :
  emitted (main ext environ) w !! k = Some ev ->
  is_launch ev = true ->
  (exists text log_config port workers limit_concurrency backlog,
     files w !! "/src/cortex/serve/log_config.yaml" = Some text /\
     yaml_load ext text = Some log_config /\
     env_int environ "CORTEX_SERVING_PORT" = Some port /\
     env_int environ "CORTEX_PROCESSES_PER_REPLICA" = Some workers /\
     env_int environ "CORTEX_MAX_PROCESS_CONCURRENCY" = Some limit_concurrency /\
     env_int environ "CORTEX_SO_MAX_CONN" = Some backlog /\
     ev = UvicornRun "cortex.serve.wsgi:app" "0.0.0.0" port workers
            limit_concurrency backlog log_config "info") /\
  S k = length (emitted (main ext environ) w).
Proof.
  intros Hk Hlaunch.
  pose proof (main_ends_emitted ext environ w) as Hends.
  assert (forall evs i, Forall (fun ev => is_launch ev = false) evs ->
                        evs !! i = Some ev -> False) as Hnot.
  { intros evs i Hall Hi. rewrite Forall_forall in Hall.
    apply list_elem_of_lookup_2, Hall in Hi. congruence. }
  remember (emitted (main ext environ) w) as all eqn:Hall.
  remember (main ext environ w).1 as o eqn:Ho.
  destruct Hends as [e evs Hl Hd|evs a ms ps r Hl Hd Hf|evs ev' Hl Hd Hcall Hcfg].
  - by destruct (Hnot evs k Hl).
  - apply lookup_app_Some in Hk as [Hk|[_ Hk]].
    + by destruct (Hnot evs k Hl).
    + apply list_lookup_singleton_Some in Hk as [_ <-]. discriminate Hlaunch.
  - apply lookup_app_Some in Hk as [Hk|[Hlen Hk]].
    + by destruct (Hnot evs k Hl).
    + apply list_lookup_singleton_Some in Hk as [Hk <-].
      split; [exact Hcall|]. rewrite length_app. cbn. lia.
Qed.

(** C7, at a run for a Python predictor: the sixth call is the launch. *)
Lemma C7_launch_arguments_witness :
  let ext := sample_ext PythonPredictorType [] in
  emitted (main ext sample_environ) sample_world !! 5%nat =
    Some (UvicornRun "cortex.serve.wsgi:app" "0.0.0.0" 8888 2 4 1024 (PyDict ∅) "info") /\
  6%nat = length (emitted (main ext sample_environ) sample_world).
Proof.
  intros ext.
  assert (emitted (main ext sample_environ) sample_world !! 5%nat =
    Some (UvicornRun "cortex.serve.wsgi:app" "0.0.0.0" 8888 2 4 1024 (PyDict ∅) "info"))
    as Hk by (vm_compute; reflexivity).
  split; [exact Hk|].
  exact (proj2 (C7_launch_arguments ext sample_environ sample_world 5 _ Hk eq_refl)).
Defined.

(** C8. When a value that [main] requires from the environment is missing,
    or one it passes to [int] is not an integer, the run ends with an
    exception and [uvicorn.run] is not called.  More generally, a run that
    ends with an exception other than one raised by [uvicorn.run] itself has
    not called [uvicorn.run]. *)
Theorem C8_no_launch_on_bad_config ext environ w :
  (config_complete environ = false ->
   (exists e, (main ext environ w).1 = Raised e) /\
   Forall (fun ev => is_launch ev = false) (emitted (main ext environ) w)) /\
  (forall e,
     (main ext environ w).1 = Raised e ->
     e <> CollaboratorError "uvicorn.run" ->
     Forall (fun ev => is_launch ev = false) (emitted (main ext environ) w)).
Proof.
  pose proof (main_ends_emitted ext environ w) as Hends.
  assert (forall evs a ms ps r,
            Forall (fun ev => is_launch ev = false) evs ->
            Forall (fun ev => is_launch ev = false) (evs ++ [AddModelsConfig a ms ps r]))
    as Hsnoc.
  { intros. apply Forall_app. split; [done|]. by apply Forall_singleton. }
  remember (emitted (main ext environ) w) as all eqn:Hall.
  remember (main ext environ w).1 as o eqn:Ho.
  destruct Hends as [e evs Hl Hd|evs a ms ps r Hl Hd Hf|evs ev' Hl Hd Hcall Hcfg].
  - split; [intros _; split; [by eexists|done]|done].
  - split; [intros _; split; [by eexists|by apply Hsnoc]|].
    intros _ _ _. by apply Hsnoc.
  - split; [congruence|].
    intros e He Hne. unfold outcome_of in He.
    destruct (uvicorn_run_ok ext); [discriminate He|].
    injection He as He. by destruct Hne.
Qed.

(** C8, at an environment without [CORTEX_SERVING_PORT]. *)
Lemma C8_no_launch_on_bad_config_witness :
  let ext := sample_ext PythonPredictorType [] in
  let environ := delete "CORTEX_SERVING_PORT" sample_environ in
  (exists e, (main ext environ sample_world).1 = Raised e) /\
  Forall (fun ev => is_launch ev = false) (emitted (main ext environ) sample_world).
Proof.
  intros ext environ.
  apply (proj1 (C8_no_launch_on_bad_config ext environ sample_world)).
  reflexivity.
Defined.

(** The call of rank [k] of the direct load goes to the backing server of
    index [k]. *)
Lemma load_tensorflow_serving_models_lookup ext environ model_dir models port w k ev :
  environ !! "CORTEX_MODEL_DIR" = Some model_dir ->
  environ !! "CORTEX_MODELS" = Some models ->
  Py.to_int (os_getenv_or environ "CORTEX_TF_BASE_SERVING_PORT" "9000") = Some port ->
  emitted (load_tensorflow_serving_models ext environ) w !! k = Some ev ->
  ev = direct_load_call environ model_dir models port (Z.of_nat k).
Proof.
  intros Hdir Hmodels Hport Hk.
  destruct (num_processes environ) as [n|] eqn:Hn.
  - rewrite (emitted_app _ w
      (direct_load_call environ model_dir models port <$>
       match list_find (fun i => add_models_config_ok ext
                                   (tfs_address (tfs_host environ) port i) = false)
                       (range n) with
       | None => range n
       | Some (i, _) => take (S i) (range n)
       end)) in Hk.
    + apply list_lookup_fmap_Some in Hk as (i & -> & Hi).
      f_equal. destruct (list_find _ _) as [[j ?]|].
      * apply lookup_take_Some in Hi as [Hi _].
        apply lookup_seqZ in Hi as [-> _]. lia.
      * apply lookup_seqZ in Hi as [-> _]. lia.
    + rewrite (load_tensorflow_serving_models_loop ext environ model_dir models port n)
        by done.
      rewrite for_each_call. by destruct (list_find _ _) as [[j ?]|].
  - rewrite (emitted_app _ w []) in Hk; [done|]. rewrite app_nil_r.
    unfold load_tensorflow_serving_models, bind, os_environ, int, or_raise, ret, raise,
      os_getenv.
    rewrite Hdir, Hport, Hmodels. cbv beta iota.
    unfold num_processes, env_int in Hn.
    destruct (truthy (environ !! "CORTEX_MULTIPLE_TF_SERVERS")); [|done].
    destruct (environ !! "CORTEX_PROCESSES_PER_REPLICA") as [s|]; [|done].
    cbn in Hn. by rewrite Hn.
Qed.

(** C9. Without [CORTEX_TF_SERVING_HOST] the TensorFlow daemon and the
    direct load use host [localhost], and without
    [CORTEX_TF_BASE_SERVING_PORT] they use port 9000, and neither fails for
    it; the writing of the table of ports instead raises [KeyError] when
    [CORTEX_TF_BASE_SERVING_PORT] is missing, and writes nothing. *)
Theorem C9_host_and_port_defaults ext environ w :
  (forall api_spec model_dir,
     main_side_reloading ext environ api_spec TensorFlowPredictorType false model_dir w =
       (outcome_of (tfs_loader_ok ext) "TFSModelLoader",
        log (TFSModelLoaderStart 10 api_spec
               (default "localhost" (environ !! "CORTEX_TF_SERVING_HOST") +:+ ":" +:+
                default "9000" (environ !! "CORTEX_TF_BASE_SERVING_PORT"))
               model_dir model_dir) w)) /\
  (forall api_spec model_dir,
     environ !! "CORTEX_TF_SERVING_HOST" = None ->
     environ !! "CORTEX_TF_BASE_SERVING_PORT" = None ->
     main_side_reloading ext environ api_spec TensorFlowPredictorType false model_dir w =
       (outcome_of (tfs_loader_ok ext) "TFSModelLoader",
        log (TFSModelLoaderStart 10 api_spec "localhost:9000" model_dir model_dir) w)) /\
  (forall model_dir models port n,
     environ !! "CORTEX_TF_SERVING_HOST" = None ->
     environ !! "CORTEX_MODEL_DIR" = Some model_dir ->
     environ !! "CORTEX_MODELS" = Some models ->
     Py.to_int (os_getenv_or environ "CORTEX_TF_BASE_SERVING_PORT" "9000") = Some port ->
     num_processes environ = Some n ->
     (forall i, 0 <= i < n ->
        add_models_config_ok ext (tfs_address "localhost" port i) = true) ->
     load_tensorflow_serving_models ext environ w =
       (Returned tt,
        World (files w)
          (calls w ++
           ((fun i => AddModelsConfig ("localhost:" +:+ Py.of_int (port + i))
                        (Py.strip <$> Py.split "," models)
                        (Py.path_join model_dir <$> (Py.strip <$> Py.split "," models))
                        false) <$> seqZ 0 n)))) /\
  (forall model_dir models n,
     environ !! "CORTEX_TF_BASE_SERVING_PORT" = None ->
     environ !! "CORTEX_MODEL_DIR" = Some model_dir ->
     environ !! "CORTEX_MODELS" = Some models ->
     num_processes environ = Some n ->
     (forall i, 0 <= i < n ->
        add_models_config_ok ext (tfs_address (tfs_host environ) 9000 i) = true) ->
     load_tensorflow_serving_models ext environ w =
       (Returned tt,
        World (files w)
          (calls w ++
           ((fun i => AddModelsConfig (tfs_host environ +:+ ":" +:+ Py.of_int (9000 + i))
                        (Py.strip <$> Py.split "," models)
                        (Py.path_join model_dir <$> (Py.strip <$> Py.split "," models))
                        false) <$> seqZ 0 n)))) /\
  (truthy (environ !! "CORTEX_MULTIPLE_TF_SERVERS") = true ->
   environ !! "CORTEX_TF_BASE_SERVING_PORT" = None ->
   main_used_ports ext environ w =
     (Raised (KeyError "CORTEX_TF_BASE_SERVING_PORT"), w)).
Proof.
  split; [|split; [|split; [|split]]].
  - intros api_spec model_dir.
    rewrite main_side_reloading_tensorflow, call_run.
    by destruct (tfs_loader_ok ext).
  - intros api_spec model_dir Hhost Hport.
    rewrite main_side_reloading_tensorflow, call_run.
    unfold os_getenv_or. rewrite Hhost, Hport.
    by destruct (tfs_loader_ok ext).
  - intros model_dir models port n Hhost Hdir Hmodels Hport Hn Hok.
    assert (tfs_host environ = "localhost") as Hh
      by (unfold tfs_host, os_getenv_or; by rewrite Hhost).
    rewrite (load_tensorflow_serving_models_ok ext environ model_dir models port n)
      by (try done; by rewrite Hh).
    unfold direct_load_call, tfs_address. by rewrite Hh.
  - intros model_dir models n Hport Hdir Hmodels Hn Hok.
    rewrite (load_tensorflow_serving_models_ok ext environ model_dir models 9000 n);
      try done.
    unfold os_getenv_or. by rewrite Hport.
  - intros Hflag Hport.
    unfold main_used_ports, os_getenv, bind, os_environ, or_raise.
    by rewrite Hflag, Hport.
Qed.

(** C9, at an environment with neither the host nor the base port, and
    with the flag of multiple servers set. *)
Lemma C9_host_and_port_defaults_witness :
  let ext := sample_ext TensorFlowNeuronPredictorType [] in
  let environ :=
    delete "CORTEX_TF_SERVING_HOST" (delete "CORTEX_TF_BASE_SERVING_PORT" sample_environ) in
  main_side_reloading ext environ PyNone TensorFlowPredictorType false "/mnt/model"
    sample_world =
    (Returned tt,
     log (TFSModelLoaderStart 10 PyNone "localhost:9000" "/mnt/model" "/mnt/model")
         sample_world) /\
  load_tensorflow_serving_models ext environ sample_world =
    (Returned tt,
     World (files sample_world)
       [ AddModelsConfig "localhost:9000" ["iris"; "resnet50"]
           ["/mnt/model/iris"; "/mnt/model/resnet50"] false;
         AddModelsConfig "localhost:9001" ["iris"; "resnet50"]
           ["/mnt/model/iris"; "/mnt/model/resnet50"] false ]) /\
  main_used_ports ext environ sample_world =
    (Raised (KeyError "CORTEX_TF_BASE_SERVING_PORT"), sample_world).
Proof.
  intros ext environ.
  destruct (C9_host_and_port_defaults ext environ sample_world)
    as (_ & Hdaemon & Hload & _ & Hports).
  split; [|split].
  - exact (Hdaemon PyNone "/mnt/model" eq_refl eq_refl).
  - exact (Hload "/mnt/model" "iris, resnet50" 9000 2 eq_refl eq_refl eq_refl eq_refl
             eq_refl (fun _ _ => eq_refl)).
  - exact (Hports eq_refl eq_refl).
Defined.

(** C10. Every call of the direct load lists the same names, the models
    value split on commas with each piece stripped, and the same paths, the
    model directory joined with each name, with [replace_models=False]; the
    call of rank [k] differs from the others only in its port, the base port
    plus [k]. *)
Theorem C10_direct_load_arguments ext environ w k ev :
  emitted (load_tensorflow_serving_models ext environ) w !! k = Some ev ->
  exists model_dir models port,
    environ !! "CORTEX_MODEL_DIR" = Some model_dir /\
    environ !! "CORTEX_MODELS" = Some models /\
    Py.to_int (os_getenv_or environ "CORTEX_TF_BASE_SERVING_PORT" "9000") = Some port /\
    ev = AddModelsConfig
           (os_getenv_or environ "CORTEX_TF_SERVING_HOST" "localhost" +:+ ":" +:+
            Py.of_int (port + Z.of_nat k))
           (Py.strip <$> Py.split "," models)
           (Py.path_join model_dir <$> (Py.strip <$> Py.split "," models))
           false.
Proof.
  intros Hk.
  pose proof (since_emitted _ _ _ (load_tensorflow_serving_models_calls ext environ w))
    as Hall.
  rewrite Forall_forall in Hall.
  destruct (Hall ev) as (model_dir & models & port & i & Hdir & Hmodels & Hport & _ & _).
  { by apply list_elem_of_lookup_2 in Hk. }
  exists model_dir, models, port. repeat split; try done.
  by apply (load_tensorflow_serving_models_lookup ext environ model_dir models port w k).
Qed.

(** C10, at the second call of a run with two models. *)
Lemma C10_direct_load_arguments_witness :
  exists model_dir models port,
    sample_environ !! "CORTEX_MODEL_DIR" = Some model_dir /\
    sample_environ !! "CORTEX_MODELS" = Some models /\
    Py.to_int (os_getenv_or sample_environ "CORTEX_TF_BASE_SERVING_PORT" "9000")
      = Some port /\
    AddModelsConfig "tfs:9001" ["iris"; "resnet50"]
      ["/mnt/model/iris"; "/mnt/model/resnet50"] false =
    AddModelsConfig
      (os_getenv_or sample_environ "CORTEX_TF_SERVING_HOST" "localhost" +:+ ":" +:+
       Py.of_int (port + Z.of_nat 1))
      (Py.strip <$> Py.split "," models)
      (Py.path_join model_dir <$> (Py.strip <$> Py.split "," models))
      false.
Proof.
  apply (C10_direct_load_arguments (sample_ext TensorFlowNeuronPredictorType [])
           sample_environ sample_world 1).
  vm_compute. reflexivity.
Defined.

(** * Further properties of the start-up *)

(** ** The direct load at its edges *)

(** X1. Without [CORTEX_MULTIPLE_TF_SERVERS] (unset or empty) the direct
    load makes exactly one call, to the base port, whatever
    [CORTEX_PROCESSES_PER_REPLICA] holds, and ends as that call ends. *)
Theorem X1_one_server_without_flag ext environ model_dir models port w :
  truthy (environ !! "CORTEX_MULTIPLE_TF_SERVERS") = false ->
  environ !! "CORTEX_MODEL_DIR" = Some model_dir ->
  environ !! "CORTEX_MODELS" = Some models ->
  Py.to_int (os_getenv_or environ "CORTEX_TF_BASE_SERVING_PORT" "9000") = Some port ->
  forall processes,
    let environ' :=
      match processes with
      | Some v => <["CORTEX_PROCESSES_PER_REPLICA" := v]> environ
      | None => delete "CORTEX_PROCESSES_PER_REPLICA" environ
      end in
    load_tensorflow_serving_models ext environ' w =
      (outcome_of (add_models_config_ok ext (tfs_host environ +:+ ":" +:+ Py.of_int port))
                  "add_models_config",
       log (AddModelsConfig (tfs_host environ +:+ ":" +:+ Py.of_int port)
              (Py.strip <$> Py.split "," models)
              (Py.path_join model_dir <$> (Py.strip <$> Py.split "," models))
              false) w).
Proof.
  intros Hflag Hdir Hmodels Hport processes environ'.
  assert (forall key, key <> "CORTEX_PROCESSES_PER_REPLICA" ->
                      environ' !! key = environ !! key) as Hsame.
  { intros key Hkey. subst environ'. destruct processes.
    - by rewrite lookup_insert_ne.
    - by rewrite lookup_delete_ne. }
  assert (tfs_host environ' = tfs_host environ) as Hhost
    by (unfold tfs_host, os_getenv_or; by rewrite Hsame).
  rewrite (load_tensorflow_serving_models_loop ext environ' model_dir models port 1).
  - unfold range. change (seqZ 0 1) with [0]. cbn [for_each].
    unfold bind, ret. rewrite call_run.
    unfold direct_load_call, tfs_address. rewrite Hhost, Z.add_0_r.
    by destruct (add_models_config_ok ext _).
  - by rewrite Hsame.
  - by rewrite Hsame.
  - unfold os_getenv_or. by rewrite Hsame.
  - unfold num_processes. by rewrite Hsame, Hflag.
Qed.

(** X1, with eight processes per replica but no flag: one call. *)
Lemma X1_one_server_without_flag_witness :
  load_tensorflow_serving_models (sample_ext TensorFlowNeuronPredictorType [])
    (<["CORTEX_PROCESSES_PER_REPLICA" := "8"]>
       (delete "CORTEX_MULTIPLE_TF_SERVERS" sample_environ)) sample_world =
  (Returned tt,
   log (AddModelsConfig "tfs:9000" ["iris"; "resnet50"]
          ["/mnt/model/iris"; "/mnt/model/resnet50"] false) sample_world).
Proof.
  exact (X1_one_server_without_flag (sample_ext TensorFlowNeuronPredictorType [])
           (delete "CORTEX_MULTIPLE_TF_SERVERS" sample_environ)
           "/mnt/model" "iris, resnet50" 9000 sample_world
           eq_refl eq_refl eq_refl eq_refl (Some "8")).
Defined.

(** X2. With the flag set and a number of processes that is zero or
    negative, the direct load makes no call at all and returns, leaving the
    world as it was. *)
Theorem X2_no_call_without_processes ext environ model_dir models port n w :
  environ !! "CORTEX_MODEL_DIR" = Some model_dir ->
  environ !! "CORTEX_MODELS" = Some models ->
  Py.to_int (os_getenv_or environ "CORTEX_TF_BASE_SERVING_PORT" "9000") = Some port ->
  truthy (environ !! "CORTEX_MULTIPLE_TF_SERVERS") = true ->
  env_int environ "CORTEX_PROCESSES_PER_REPLICA" = Some n ->
  n <= 0 ->
  load_tensorflow_serving_models ext environ w = (Returned tt, w).
Proof.
  intros Hdir Hmodels Hport Hflag Hn Hle.
  rewrite (load_tensorflow_serving_models_loop ext environ model_dir models port n);
    try done.
  - unfold range. by rewrite seqZ_nil.
  - unfold num_processes. by rewrite Hflag.
Qed.

(** X2, at zero processes. *)
Lemma X2_no_call_without_processes_witness :
  load_tensorflow_serving_models (sample_ext TensorFlowNeuronPredictorType [])
    (<["CORTEX_PROCESSES_PER_REPLICA" := "0"]> sample_environ) sample_world =
  (Returned tt, sample_world).
Proof.
  apply (X2_no_call_without_processes _ _ "/mnt/model" "iris, resnet50" 9000 0);
    [reflexivity..|lia].
Defined.

(** X3. The direct load reads its inputs in a fixed order and raises at the
    first that is wrong, before any call is made: the model directory
    ([KeyError]), the base port ([ValueError] when it is not an integer),
    the models ([KeyError]), and, when the flag is set, the number of
    processes ([KeyError] when missing, [ValueError] when not an integer). *)
Theorem X3_direct_load_input_errors ext environ w :
  (environ !! "CORTEX_MODEL_DIR" = None ->
   load_tensorflow_serving_models ext environ w =
     (Raised (KeyError "CORTEX_MODEL_DIR"), w)) /\
  (forall model_dir,
     environ !! "CORTEX_MODEL_DIR" = Some model_dir ->
     Py.to_int (os_getenv_or environ "CORTEX_TF_BASE_SERVING_PORT" "9000") = None ->
     load_tensorflow_serving_models ext environ w =
       (Raised (ValueError (os_getenv_or environ "CORTEX_TF_BASE_SERVING_PORT" "9000")),
        w)) /\
  (forall model_dir port,
     environ !! "CORTEX_MODEL_DIR" = Some model_dir ->
     Py.to_int (os_getenv_or environ "CORTEX_TF_BASE_SERVING_PORT" "9000") = Some port ->
     environ !! "CORTEX_MODELS" = None ->
     load_tensorflow_serving_models ext environ w =
       (Raised (KeyError "CORTEX_MODELS"), w)) /\
  (forall model_dir port models,
     environ !! "CORTEX_MODEL_DIR" = Some model_dir ->
     Py.to_int (os_getenv_or environ "CORTEX_TF_BASE_SERVING_PORT" "9000") = Some port ->
     environ !! "CORTEX_MODELS" = Some models ->
     truthy (environ !! "CORTEX_MULTIPLE_TF_SERVERS") = true ->
     environ !! "CORTEX_PROCESSES_PER_REPLICA" = None ->
     load_tensorflow_serving_models ext environ w =
       (Raised (KeyError "CORTEX_PROCESSES_PER_REPLICA"), w)) /\
  (forall model_dir port models s,
     environ !! "CORTEX_MODEL_DIR" = Some model_dir ->
     Py.to_int (os_getenv_or environ "CORTEX_TF_BASE_SERVING_PORT" "9000") = Some port ->
     environ !! "CORTEX_MODELS" = Some models ->
     truthy (environ !! "CORTEX_MULTIPLE_TF_SERVERS") = true ->
     environ !! "CORTEX_PROCESSES_PER_REPLICA" = Some s ->
     Py.to_int s = None ->
     load_tensorflow_serving_models ext environ w = (Raised (ValueError s), w)).
Proof.
  unfold load_tensorflow_serving_models.
  unfold bind, os_environ, int, or_raise, ret, raise, os_getenv.
  repeat split.
  - intros Hdir. by rewrite Hdir.
  - intros model_dir Hdir Hport. by rewrite Hdir, Hport.
  - intros model_dir port Hdir Hport Hmodels. by rewrite Hdir, Hport, Hmodels.
  - intros model_dir port models Hdir Hport Hmodels Hflag Hs.
    by rewrite Hdir, Hport, Hmodels, Hflag, Hs.
  - intros model_dir port models s Hdir Hport Hmodels Hflag Hs Hn.
    by rewrite Hdir, Hport, Hmodels, Hflag, Hs, Hn.
Qed.

(** X3, at an environment whose base port is not a number. *)
Lemma X3_direct_load_input_errors_witness :
  load_tensorflow_serving_models (sample_ext TensorFlowNeuronPredictorType [])
    (<["CORTEX_TF_BASE_SERVING_PORT" := "nine thousand"]> sample_environ) sample_world =
  (Raised (ValueError "nine thousand"), sample_world).
Proof.
  exact (proj1 (proj2 (X3_direct_load_input_errors
                  (sample_ext TensorFlowNeuronPredictorType [])
                  (<["CORTEX_TF_BASE_SERVING_PORT" := "nine thousand"]> sample_environ)
                  sample_world))
           "/mnt/model" eq_refl eq_refl).
Defined.

(** ** The table of ports and the caching mode at their edges *)

(** X4. With the flag set and a number of processes that is zero or
    negative, the table of ports is empty and the file is still written: it
    holds the empty JSON object. *)
Theorem X4_empty_port_table ext environ base n w :
  truthy (environ !! "CORTEX_MULTIPLE_TF_SERVERS") = true ->
  env_int environ "CORTEX_TF_BASE_SERVING_PORT" = Some base ->
  env_int environ "CORTEX_PROCESSES_PER_REPLICA" = Some n ->
  n <= 0 ->
  open_w_ok ext "/run/used_ports.json" = true ->
  used_ports base n = [] /\
  main_used_ports ext environ w =
    (Returned tt,
     World (<["/run/used_ports.json" := "{}"]> (files w))
           (calls w ++ [JsonDump "/run/used_ports.json" "{}"])).
Proof.
  intros Hflag Hbase Hn Hle Hopen.
  assert (used_ports base n = []) as Hempty
    by (unfold used_ports, range; by rewrite seqZ_nil).
  split; [done|].
  unfold main_used_ports, os_getenv. rewrite Hflag.
  unfold env_int in Hbase, Hn.
  destruct (environ !! "CORTEX_TF_BASE_SERVING_PORT") as [s1|] eqn:H1; [|done].
  destruct (environ !! "CORTEX_PROCESSES_PER_REPLICA") as [s2|] eqn:H2; [|done].
  cbn in Hbase, Hn.
  unfold bind, os_environ, int, or_raise, ret, json_dump_file.
  rewrite H1, Hbase, H2, Hn, Hopen, Hempty. reflexivity.
Qed.

(** X4, at zero processes. *)
Lemma X4_empty_port_table_witness :
  main_used_ports (sample_ext PythonPredictorType [])
    (<["CORTEX_PROCESSES_PER_REPLICA" := "0"]> sample_environ) sample_world =
  (Returned tt,
   World (<["/run/used_ports.json" := "{}"]> (files sample_world))
         [JsonDump "/run/used_ports.json" "{}"]).
Proof.
  apply (X4_empty_port_table (sample_ext PythonPredictorType [])
           (<["CORTEX_PROCESSES_PER_REPLICA" := "0"]> sample_environ) 9000 0 sample_world);
    [reflexivity..|lia|reflexivity].
Defined.

(** X5. On an API spec that is not shaped as expected,
    [is_model_caching_enabled] raises and changes nothing: [TypeError] when
    the spec, its [predictor] or its [models] is not a dictionary (a null
    [models] section among them), [KeyError] when [predictor] or [models] is
    missing. *)
Theorem X5_caching_enabled_on_malformed_spec api_spec w :
  (is_dict api_spec = false ->
   is_model_caching_enabled api_spec w = (Raised TypeError, w)) /\
  (forall d,
     api_spec = PyDict d -> d !! "predictor" = None ->
     is_model_caching_enabled api_spec w = (Raised (KeyError "predictor"), w)) /\
  (forall d predictor,
     api_spec = PyDict d -> d !! "predictor" = Some predictor ->
     is_dict predictor = false ->
     is_model_caching_enabled api_spec w = (Raised TypeError, w)) /\
  (forall d p,
     api_spec = PyDict d -> d !! "predictor" = Some (PyDict p) ->
     p !! "models" = None ->
     is_model_caching_enabled api_spec w = (Raised (KeyError "models"), w)) /\
  (forall d p models,
     api_spec = PyDict d -> d !! "predictor" = Some (PyDict p) ->
     p !! "models" = Some models -> is_dict models = false ->
     is_model_caching_enabled api_spec w = (Raised TypeError, w)).
Proof.
  unfold is_model_caching_enabled, bind, getitem, or_raise, ret, raise.
  repeat split.
  - intros Hd. by destruct api_spec.
  - intros d -> Hp. by rewrite Hp.
  - intros d predictor -> Hp Hd. rewrite Hp. by destruct predictor.
  - intros d p -> Hp Hm. rewrite Hp. cbv beta iota. by rewrite Hm.
  - intros d p models -> Hp Hm Hd. rewrite Hp. cbv beta iota. rewrite Hm.
    by destruct models.
Qed.

(** X5, at a spec whose [models] section is null. *)
Lemma X5_caching_enabled_on_malformed_spec_witness :
  is_model_caching_enabled
    (PyDict {[ "predictor" := PyDict {[ "models" := PyNone ]} ]}) sample_world =
  (Raised TypeError, sample_world).
Proof.
  exact (proj2 (proj2 (proj2 (proj2 (X5_caching_enabled_on_malformed_spec
           (PyDict {[ "predictor" := PyDict {[ "models" := PyNone ]} ]}) sample_world))))
           {[ "predictor" := PyDict {[ "models" := PyNone ]} ]}
           {[ "models" := PyNone ]} PyNone eq_refl eq_refl eq_refl eq_refl).
Defined.

(** ** [int] reads back what [str] writes *)

Lemma rev_app_rev_app (s t u : string) :
  String.rev_app (String.rev_app s t) u = String.rev_app t (s +:+ u).
Proof.
  revert t u. induction s as [|a s IH]; intros t u; [done|].
  cbn [String.rev_app]. rewrite IH. reflexivity.
Qed.

Lemma string_app_nil_r (s : string) : s +:+ "" = s.
Proof.
  induction s as [|a s IH]; [done|].
  change (String a s +:+ "") with (String a (s +:+ "")). by rewrite IH.
Qed.

Lemma string_rev_involutive (s : string) : String.rev (String.rev s) = s.
Proof.
  unfold String.rev. rewrite rev_app_rev_app. cbn. apply string_app_nil_r.
Qed.

Lemma all_chars_rev_app P (s t : string) :
  all_chars P (String.rev_app s t) = all_chars P s && all_chars P t.
Proof.
  revert t. induction s as [|a s IH]; intros t; [done|].
  cbn [String.rev_app all_chars]. rewrite IH. cbn [all_chars].
  by destruct (P a), (all_chars P s), (all_chars P t).
Qed.

Lemma int_lstrip_no_space (s : string) :
  all_chars (fun c => negb (Py.int_space c)) s = true -> Py.int_lstrip s = s.
Proof.
  destruct s as [|c s]; [done|]. cbn [all_chars Py.int_lstrip].
  by destruct (Py.int_space c).
Qed.

(** A literal without white space is read by [int] as it stands. *)
Lemma int_strip_no_space (s : string) :
  all_chars (fun c => negb (Py.int_space c)) s = true -> Py.int_strip s = s.
Proof.
  intros Hs. unfold Py.int_strip. rewrite (int_lstrip_no_space s Hs).
  rewrite int_lstrip_no_space; [apply string_rev_involutive|].
  unfold String.rev. rewrite all_chars_rev_app, Hs. done.
Qed.

Lemma digit_pretty_N_char (d : N) :
  (d < 10)%N -> Py.digit (pretty_N_char d) = Some (Z.of_N d).
Proof.
  intros Hd.
  assert (d = 0 \/ d = 1 \/ d = 2 \/ d = 3 \/ d = 4 \/ d = 5 \/ d = 6 \/ d = 7 \/
          d = 8 \/ d = 9)%N as Hcases by lia.
  repeat destruct Hcases as [->|Hcases]; try reflexivity. by subst d.
Qed.

Lemma digit_not_space (c : ascii) :
  is_Some (Py.digit c) -> Py.int_space c = false.
Proof.
  unfold Py.digit, Py.int_space. intros [d Hd].
  destruct (48 <=? nat_of_ascii c)%nat eqn:Hlo; [|done].
  apply Nat.leb_le in Hlo.
  assert ((nat_of_ascii c <=? 13)%nat = false) as -> by (apply Nat.leb_gt; lia).
  assert ((nat_of_ascii c =? 32)%nat = false) as -> by (apply Nat.eqb_neq; lia).
  by rewrite andb_false_r.
Qed.

(** The digits that [pretty_N_go x] puts in front of [s] are read back as
    [x], on top of what was read before. *)
Lemma digits_pretty_N_go (x : N) :
  (0 < x)%N ->
  exists m : Z, forall s acc b,
    Py.digits acc b (pretty_N_go x s) = Py.digits (acc * m + Z.of_N x) true s.
Proof.
  induction (N.lt_wf_0 x) as [x _ IH]. intros Hx.
  assert (Py.digit (pretty_N_char (x `mod` 10)) = Some (Z.of_N (x `mod` 10))) as Hd
    by (apply digit_pretty_N_char, N.mod_lt; lia).
  destruct (decide (x `div` 10 = 0)%N) as [Hq|Hq].
  - exists 10. intros s acc b. rewrite pretty_N_go_step by done.
    rewrite Hq, pretty_N_go_0. cbn [Py.digits]. rewrite Hd.
    f_equal. apply N.div_small_iff in Hq; [|lia].
    rewrite N.mod_small by done. ring.
  - destruct (IH (x `div` 10)%N) as [m Hm].
    { apply N.div_lt; lia. }
    { by apply N.neq_0_lt_0. }
    exists (10 * m). intros s acc b. rewrite pretty_N_go_step by done.
    rewrite Hm. cbn [Py.digits]. rewrite Hd. f_equal.
    rewrite (N.div_mod x 10) at 3 by lia.
    rewrite N2Z.inj_add, N2Z.inj_mul. change (Z.of_N 10) with 10. ring.
Qed.

Lemma all_digits_pretty_N_go (x : N) (s : string) :
  all_chars (fun c => bool_decide (is_Some (Py.digit c))) s = true ->
  all_chars (fun c => bool_decide (is_Some (Py.digit c))) (pretty_N_go x s) = true.
Proof.
  revert s. induction (N.lt_wf_0 x) as [x _ IH]. intros s Hs.
  destruct (decide (0 < x)%N) as [Hx|Hx].
  - rewrite pretty_N_go_step by done. apply IH; [apply N.div_lt; lia|].
    cbn [all_chars]. rewrite Hs, andb_true_r. apply bool_decide_eq_true_2.
    rewrite digit_pretty_N_char; [done|]. apply N.mod_lt. lia.
  - assert (x = 0%N) as -> by lia. by rewrite pretty_N_go_0.
Qed.

Lemma all_chars_impl (P Q : ascii -> bool) (s : string) :
  (forall c, P c = true -> Q c = true) ->
  all_chars P s = true -> all_chars Q s = true.
Proof.
  intros HPQ. induction s as [|c s IH]; [done|]. cbn [all_chars].
  intros [Hc Hs]%andb_true_iff. by rewrite (HPQ c Hc), IH.
Qed.

(** On a string of digits, [int] reads the digits. *)
Lemma to_int_unsigned (s : string) :
  all_chars (fun c => bool_decide (is_Some (Py.digit c))) s = true ->
  Py.to_int s = Py.digits 0 false s.
Proof.
  intros Hs. unfold Py.to_int. rewrite int_strip_no_space.
  - destruct s as [|c s]; [done|]. cbn [all_chars] in Hs.
    apply andb_true_iff in Hs as [Hc%bool_decide_eq_true_1 _].
    destruct Hc as [d Hd].
    destruct c as [[] [] [] [] [] [] [] []]; try done; by vm_compute in Hd.
  - revert Hs. apply all_chars_impl. intros c Hc%bool_decide_eq_true_1.
    by rewrite digit_not_space.
Qed.

Lemma to_int_pretty_N (x : N) : (0 < x)%N -> Py.to_int (pretty_N_go x "") = Some (Z.of_N x).
Proof.
  intros Hx. rewrite to_int_unsigned by by apply all_digits_pretty_N_go.
  destruct (digits_pretty_N_go x Hx) as [m Hm]. rewrite Hm.
  cbn [Py.digits]. by rewrite Z.mul_0_l, Z.add_0_l.
Qed.

(** [int(str(n)) == n] *)
Lemma to_int_of_int (n : Z) : Py.to_int (Py.of_int n) = Some n.
Proof.
  unfold Py.of_int, pretty, pretty_Z. destruct n as [|p|p].
  - reflexivity.
  - unfold pretty, pretty_positive, pretty, pretty_N.
    rewrite decide_False by done. by rewrite to_int_pretty_N.
  - unfold pretty, pretty_positive, pretty, pretty_N.
    rewrite decide_False by done.
    assert (all_chars (fun c => bool_decide (is_Some (Py.digit c)))
              (pretty_N_go (N.pos p) "") = true) as Hall
      by by apply all_digits_pretty_N_go.
    change ("-" +:+ pretty_N_go (N.pos p) "")
      with (String "-" (pretty_N_go (N.pos p) "")).
    unfold Py.to_int. rewrite int_strip_no_space.
    + cbv beta iota. rewrite <- to_int_unsigned by done.
      by rewrite to_int_pretty_N.
    + cbn [all_chars]. rewrite andb_true_iff. split; [done|].
      revert Hall. apply all_chars_impl. intros c Hc%bool_decide_eq_true_1.
      by rewrite digit_not_space.
Qed.

(** X6. Every key of the table of ports is read back by [int] as a port of
    the range: [int(key)] lies between the base port and the base port plus
    the number of processes, and its value is [False]. *)
Theorem X6_port_table_keys_parse (base n : Z) (key : string) (v : bool) :
  (key, v) ∈ used_ports base n ->
  exists port, Py.to_int key = Some port /\ base <= port < base + n /\ v = false.
Proof.
  rewrite used_ports_eq, list_elem_of_fmap.
  intros (i & Heq & Hi%elem_of_seqZ). injection Heq as -> ->.
  exists (base + i). split; [apply to_int_of_int|]. split; [lia|done].
Qed.

(** X6, at the second key of the table for two processes from 9000. *)
Lemma X6_port_table_keys_parse_witness :
  exists port, Py.to_int "9001" = Some port /\ 9000 <= port < 9000 + 2 /\ false = false.
Proof.
  apply (X6_port_table_keys_parse 9000 2 "9001" false).
  vm_compute. right. left.
Defined.

(** ** The model names *)

Lemma lstrip_starts_clean (s : string) : starts_clean (Py.lstrip s) = true.
Proof.
  induction s as [|c s IH]; [done|]. cbn [Py.lstrip].
  destruct (Py.isspace c) eqn:Hc; [done|]. cbn. by rewrite Hc.
Qed.

Lemma lstrip_suffix (s : string) : exists p, s = p +:+ Py.lstrip s.
Proof.
  induction s as [|c s [p IH]]; [by exists ""|]. cbn [Py.lstrip].
  destruct (Py.isspace c).
  - exists (String c p). change (String c p +:+ Py.lstrip s)
      with (String c (p +:+ Py.lstrip s)). by rewrite <- IH.
  - by exists "".
Qed.

Lemma rev_app_app (p q u : string) :
  String.rev_app (p +:+ q) u = String.rev_app q (String.rev_app p u).
Proof.
  revert u. induction p as [|a p IH]; intros u; [done|].
  change (String a p +:+ q) with (String a (p +:+ q)).
  cbn [String.rev_app]. by rewrite IH.
Qed.

Lemma rev_app_append (s t : string) :
  String.rev_app s t = String.rev s +:+ t.
Proof.
  unfold String.rev. revert t. induction s as [|a s IH]; intros t; [done|].
  cbn [String.rev_app]. rewrite IH, (IH (String a "")).
  generalize (String.rev_app s ""). intros r.
  induction r as [|b r IHr]; [done|].
  change (String b r +:+ String a t) with (String b (r +:+ String a t)).
  change ((String b r +:+ String a "") +:+ t)
    with (String b ((r +:+ String a "") +:+ t)).
  by rewrite IHr.
Qed.

(** [rstrip] keeps a prefix of its argument. *)
Lemma rstrip_prefix (s : string) : exists t, s = Py.rstrip s +:+ t.
Proof.
  destruct (lstrip_suffix (String.rev s)) as [p Hp].
  exists (String.rev p). unfold Py.rstrip.
  rewrite <- (string_rev_involutive s) at 1. rewrite Hp at 1.
  unfold String.rev at 1. rewrite rev_app_app.
  by rewrite rev_app_append.
Qed.

(** [strip] leaves no white space at either end. *)
Lemma strip_trimmed (s : string) : trimmed (Py.strip s) = true.
Proof.
  unfold trimmed, Py.strip. apply andb_true_iff. split.
  - pose proof (lstrip_starts_clean s) as Hclean.
    destruct (rstrip_prefix (Py.lstrip s)) as [t Ht].
    destruct (Py.rstrip (Py.lstrip s)) as [|c r]; [done|].
    rewrite Ht in Hclean. exact Hclean.
  - unfold Py.rstrip. rewrite string_rev_involutive. apply lstrip_starts_clean.
Qed.

Lemma length_split (sep : ascii) (s : string) :
  length (Py.split sep s) = S (count_char sep s).
Proof.
  induction s as [|c s IH]; [done|]. cbn [Py.split count_char].
  destruct (decide (c = sep)).
  - cbn. by rewrite IH.
  - destruct (Py.split sep s) as [|piece rest]; [done|]. cbn in *. lia.
Qed.

(** X7. In every call of the direct load the names are the pieces of
    [CORTEX_MODELS] between its commas, one more than there are commas, so
    never none; no name has white space at either end; and there is one
    path per name. *)
Theorem X7_model_names ext environ w k address names base_paths replace_models :
  emitted (load_tensorflow_serving_models ext environ) w !! k =
    Some (AddModelsConfig address names base_paths replace_models) ->
  exists models,
    environ !! "CORTEX_MODELS" = Some models /\
    length names = S (count_char "," models) /\
    length base_paths = length names /\
    Forall (fun name => trimmed name = true) names.
Proof.
  intros Hk.
  pose proof (since_emitted _ _ _ (load_tensorflow_serving_models_calls ext environ w))
    as Hall.
  rewrite Forall_forall in Hall.
  destruct (Hall _ (list_elem_of_lookup_2 _ _ _ Hk))
    as (model_dir & models & port & i & _ & Hmodels & _ & _ & Heq).
  injection Heq as -> -> -> ->.
  exists models. split; [done|]. split; [|split].
  - by rewrite length_fmap, length_split.
  - by rewrite length_fmap.
  - apply Forall_fmap, Forall_forall. intros piece _. apply strip_trimmed.
Qed.

(** X7, at the first call of the sample run: two names for one comma. *)
Lemma X7_model_names_witness :
  exists models,
    sample_environ !! "CORTEX_MODELS" = Some models /\
    length ["iris"; "resnet50"] = S (count_char "," models) /\
    length ["/mnt/model/iris"; "/mnt/model/resnet50"] = length ["iris"; "resnet50"] /\
    Forall (fun name => trimmed name = true) ["iris"; "resnet50"].
Proof.
  apply (X7_model_names (sample_ext TensorFlowNeuronPredictorType []) sample_environ
           sample_world 0 "tfs:9000" _ _ false).
  vm_compute. reflexivity.
Defined.

(** ** The first steps of [main] *)

(** X8. When the logging configuration cannot be read, [main] stops there:
    no call has been made and no file written, whatever the environment.  It
    raises [FileNotFoundError] when the file is missing, and the error of
    [yaml.load] when its content does not load. *)
Theorem X8_log_config_first ext environ w :
  (files w !! "/src/cortex/serve/log_config.yaml" = None ->
   main ext environ w =
     (Raised (FileNotFoundError "/src/cortex/serve/log_config.yaml"), w)) /\
  (forall text,
     files w !! "/src/cortex/serve/log_config.yaml" = Some text ->
     yaml_load ext text = None ->
     main ext environ w = (Raised (CollaboratorError "yaml.load"), w)).
Proof.
  split.
  - intros Hfile. unfold main. unfold bind at 1. unfold yaml_load_file.
    by rewrite Hfile.
  - intros text Hfile Hload. unfold main. unfold bind at 1. unfold yaml_load_file.
    by rewrite Hfile, Hload.
Qed.

(** X8, at a world without files. *)
Lemma X8_log_config_first_witness :
  main (sample_ext PythonPredictorType []) sample_environ (World ∅ []) =
  (Raised (FileNotFoundError "/src/cortex/serve/log_config.yaml"), World ∅ []).
Proof.
  apply (proj1 (X8_log_config_first (sample_ext PythonPredictorType []) sample_environ
                  (World ∅ []))).
  reflexivity.
Defined.

(** X9. When [CORTEX_ACTIVE_NEURON] is set and the wait for the sidecar
    fails, [main] stops with that error: the wait is the only call made, the
    table of ports is not written and the API spec is not fetched. *)
Theorem X9_sidecar_failure_stops ext environ w text log_config :
  files w !! "/src/cortex/serve/log_config.yaml" = Some text ->
  yaml_load ext text = Some log_config ->
  truthy (environ !! "CORTEX_ACTIVE_NEURON") = true ->
  wait_neuron_rtd_ok ext = false ->
  main ext environ w =
    (Raised (CollaboratorError "wait_neuron_rtd"), log WaitNeuronRtd w).
Proof.
  intros Hfile Hload Hneuron Hwait.
  unfold main. unfold bind at 1. unfold yaml_load_file. rewrite Hfile, Hload.
  unfold bind at 1. unfold os_getenv. rewrite Hneuron, call_run, Hwait.
  reflexivity.
Qed.

(** X9, at a run whose sidecar is not ready. *)
Lemma X9_sidecar_failure_stops_witness :
  main {| yaml_load := fun _ => Some (PyDict ∅);
          wait_neuron_rtd_ok := false;
          open_w_ok := fun _ => true;
          get_spec := fun _ _ _ _ _ => Some (sample_api_spec PyNone PyNone);
          predictor_type_from_api_spec := fun _ => Some TensorFlowNeuronPredictorType;
          makedirs_ok := fun _ => true;
          file_updater_ok := true;
          tfs_loader_ok := true;
          add_models_config_ok := fun _ => true;
          uvicorn_run_ok := true |}
       (<["CORTEX_ACTIVE_NEURON" := "true"]> sample_environ) sample_world =
  (Raised (CollaboratorError "wait_neuron_rtd"), log WaitNeuronRtd sample_world).
Proof.
  apply (X9_sidecar_failure_stops _ _ _ "version: 1" (PyDict ∅)); reflexivity.
Defined.

(** ** The order of the calls *)

Lemma reached_refl ext environ w : reached ext environ w Started w.
Proof. exists []. rewrite app_nil_r. split; [done|]. constructor. Qed.

Lemma reached_calls ext environ w q w' w'' ev :
  reached ext environ w q w' ->
  calls w'' = calls w' ++ [ev] ->
  allowed ext environ w q ev ->
  reached ext environ w (phase_after ev) w''.
Proof.
  intros (evs & Hc & Hf) Hc' Hev. exists (evs ++ [ev]).
  rewrite Hc', Hc, <- app_assoc. split; [done|]. by econstructor.
Qed.

Lemma reached_log ext environ w q q' w' ev :
  reached ext environ w q w' ->
  phase_after ev = q' ->
  allowed ext environ w q ev ->
  reached ext environ w q' (log ev w').
Proof. intros Hr <- Hev. by apply (reached_calls ext environ w q w'). Qed.

Ltac run_facts :=
  repeat match goal with
         | H : _ !! _ = _ |- _ => rewrite H
         | H : get_spec _ _ _ _ _ _ = _ |- _ => rewrite H
         | H : predictor_type_from_api_spec _ _ = _ |- _ => rewrite H
         end.

(** A call is allowed, from the facts met on the way. *)
Ltac allowed_tac :=
  unfold allowed;
  repeat match goal with
         | |- _ /\ _ => split
         | |- exists _, _ => eexists
         | |- (rank _ < _)%nat => cbn [rank]; lia
         | |- launch_call _ _ _ _ => solve [launch_call_tac]
         | |- run_spec _ _ = Some _ =>
             unfold run_spec; run_facts; cbn [mbind option_bind]; run_facts; reflexivity
         | |- run_kind _ _ = Some _ \/ run_kind _ _ = Some _ =>
             first [ left; solve [allowed_tac] | right; solve [allowed_tac] ]
         | |- run_kind _ _ = Some _ =>
             unfold run_kind; run_facts; cbn [mbind option_bind]; run_facts;
             cbn [mbind option_bind]; run_facts; reflexivity
         | |- env_int _ _ = Some _ => eapply env_int_intro; eassumption
         | |- _ \/ _ => first [ left; solve [allowed_tac] | right; solve [allowed_tac] ]
         | |- _ = _ => first [ reflexivity | eassumption ]
         end.

(** One step through a call, keeping [reached]. *)
Ltac reached_step :=
  lazymatch goal with
  | |- wp (makedirs _ _) _ _ => unfold makedirs
  | Hr : reached ?ext ?env ?w ?q ?w' |- wp (call ?ev (answer ?ok) _) _ ?w' =>
      let q' := eval vm_compute in (phase_after ev) in
      apply wp_call_unit;
      apply (reached_log ext env w q q' w' ev) in Hr;
      [|reflexivity|solve [allowed_tac]];
      destruct ok eqn:?; cbn [outcome_of]
  | Hr : reached ?ext ?env ?w ?q ?w' |- wp (call ?ev ?ans _) _ ?w' =>
      let q' := eval vm_compute in (phase_after ev) in
      apply wp_call;
      apply (reached_log ext env w q q' w' ev) in Hr;
      [|reflexivity|solve [allowed_tac]];
      destruct ans eqn:?
  | Hr : reached ?ext ?env ?w ?q ?w' |- wp (json_dump_file _ ?path ?d) _ ?w' =>
      apply wp_json_dump_file; destruct (open_w_ok _ _) eqn:?;
      [apply (reached_calls ext env w q w'
                (World (<[path := json_dumps d]> (files w'))
                       (calls w' ++ [JsonDump path (json_dumps d)]))
                (JsonDump path (json_dumps d))) in Hr;
       [cbn [phase_after] in Hr|reflexivity|solve [allowed_tac]]|]
  | Hr : reached _ _ _ ?q ?w' |- exists q', reached _ _ _ q' ?w' =>
      exists q; exact Hr
  end.

(** The loop of the direct load, keeping [reached]. *)
Ltac reached_loop :=
  lazymatch goal with
  | Hr : reached ?ext ?env ?w TmpDirMade ?w' |- wp (for_each _ _) _ ?w' =>
      apply (wp_for_each
               (fun w'' => exists q, (q = TmpDirMade \/ q = DirectLoading) /\
                                     reached ext env w q w''));
      [ exists TmpDirMade; split; [by left | exact Hr]
      | let i := fresh "i" in
        let Hi := fresh "Hi" in
        let q := fresh "q" in
        let Hq := fresh "Hq" in
        let Hr' := fresh "Hr" in
        clear Hr; intros i ? Hi%elem_of_seqZ (q & Hq & Hr');
        unfold add_models_config; apply wp_call;
        lazymatch goal with
        | |- context [log ?ev _] =>
            apply (reached_log ext env w q DirectLoading _ ev) in Hr';
            [|reflexivity
             |unfold allowed; split; [exact Hq|];
              split; [solve [allowed_tac]|];
              match goal with
              | Hd : _ !! "CORTEX_MODEL_DIR" = Some ?d,
                Hm : _ !! "CORTEX_MODELS" = Some ?m,
                Hp : Py.to_int (os_getenv_or _ _ _) = Some ?p |- _ =>
                  exists d, m, p, i; repeat split; [exact Hd|exact Hm|exact Hp|lia]
              end]
        end;
        destruct (answer _); cbn [wp_then];
        [ exists DirectLoading; split; [by right | exact Hr']
        | exists DirectLoading; exact Hr' ]
      | let q := fresh "q" in
        let Hq := fresh "Hq" in
        clear Hr; intros ? (q & Hq & Hr); destruct Hq as [-> | ->] ]
  end.

(** The calls of every run of [main] follow the order of [follows]. *)
Lemma main_follows ext environ w :
  exists q, follows ext environ w (emitted (main ext environ) w) q.
Proof.
  cut (wp (main ext environ) (fun _ w' => exists q, reached ext environ w q w') w).
  { intros (q & evs & Hc & Hf). exists q. by rewrite (emitted_app _ w evs). }
  pose proof (reached_refl ext environ w) as Hr.
  unfold main, os_getenv.
  repeat (first [wp_pure_step | reached_step | reached_loop]).
Qed.

Lemma follows_snoc_inv ext environ w evs ev q :
  follows ext environ w (evs ++ [ev]) q ->
  exists q', follows ext environ w evs q' /\ allowed ext environ w q' ev /\
             q = phase_after ev.
Proof.
  intros Hf. inversion Hf as [Hnil|evs0 q0 ev0 Hf0 Hev Heq].
  - by destruct (app_cons_not_nil evs [] ev).
  - apply app_inj_tail in Heq as [-> ->]. by exists q0.
Qed.

Lemma follows_nil_inv ext environ w q :
  follows ext environ w [] q -> q = Started.
Proof.
  inversion 1 as [|evs0 q0 ev0 Hf0 Hev Heq]; [done|].
  by destruct (app_cons_not_nil evs0 [] ev0).
Qed.

Lemma follows_lookup ext environ w evs q k ev :
  follows ext environ w evs q ->
  evs !! k = Some ev ->
  exists q', follows ext environ w (take k evs) q' /\ allowed ext environ w q' ev.
Proof.
  intros Hf. revert k ev. induction Hf as [|evs q ev0 Hf IH Hev]; intros k ev Hk.
  - done.
  - apply lookup_app_Some in Hk as [Hk|[Hlen Hk]].
    + rewrite take_app_le by (apply lookup_lt_Some in Hk; lia). by apply IH.
    + apply list_lookup_singleton_Some in Hk as [Hk <-].
      assert (k = length evs) as -> by lia.
      rewrite take_app_length. by exists q.
Qed.

Lemma phase_after_makedirs_run (path : string) :
  phase_after (Makedirs path) = RunDirMade -> path = "/run/cron".
Proof.
  cbn. destruct (bool_decide (path = "/run/cron")) eqn:Hp; [|done].
  by apply bool_decide_eq_true_1 in Hp.
Qed.

(** A call never leads back: the phase it leads to is not before the phase
    it is made in. *)
Lemma allowed_rank ext environ w q ev :
  allowed ext environ w q ev -> (rank q <= rank (phase_after ev))%nat.
Proof.
  destruct ev; cbn [allowed phase_after].
  - intros [-> _]. cbn. lia.
  - intros [Hq _]. cbn. lia.
  - intros [Hq _]. cbn. lia.
  - intros [[-> ->]|[-> ->]]; vm_compute; lia.
  - intros [-> _]. cbn. lia.
  - intros [-> _]. cbn. lia.
  - intros [[-> | ->] _]; cbn; lia.
  - intros [[-> |[-> |[-> | ->]]] _]; cbn; lia.
Qed.

Lemma follows_rank ext environ w evs q ev :
  follows ext environ w evs q -> ev ∈ evs ->
  (rank (phase_after ev) <= rank q)%nat.
Proof.
  intros Hf. induction Hf as [|evs q ev0 Hf IH Hev]; intros Hin.
  - by apply not_elem_of_nil in Hin.
  - apply elem_of_app in Hin as [Hin|Hin].
    + etrans; [by apply IH|]. by eapply allowed_rank.
    + apply list_elem_of_singleton in Hin as ->. done.
Qed.

(** Of two calls of a run, the later one is made in a phase that the
    earlier one has already led to. *)
Lemma follows_before ext environ w evs q i j e1 e2 :
  follows ext environ w evs q ->
  (i < j)%nat -> evs !! i = Some e1 -> evs !! j = Some e2 ->
  exists q2, allowed ext environ w q2 e2 /\
             (rank (phase_after e1) <= rank q2)%nat.
Proof.
  intros Hf Hij H1 H2.
  destruct (follows_lookup _ _ _ _ _ _ _ Hf H2) as (q2 & Hf2 & Hev).
  exists q2. split; [done|].
  apply (follows_rank _ _ _ _ _ _ Hf2).
  apply list_elem_of_lookup. exists i. by rewrite lookup_take_lt.
Qed.

Lemma follows_started ext environ w evs :
  follows ext environ w evs Started -> evs = [].
Proof.
  inversion 1 as [|evs0 q0 ev0 Hf0 Hev Heq Hq]; [done|].
  destruct ev0; try discriminate Hq.
  cbn in Hq. by destruct (bool_decide _).
Qed.

(** Once a run is past the scratch directories, it has made them, one
    right after the other. *)
Lemma follows_dirs_made ext environ w evs q :
  follows ext environ w evs q ->
  q = TmpDirMade \/ q = DirectLoading \/ q = DaemonStarted ->
  exists i, evs !! i = Some (Makedirs "/run/cron") /\
            evs !! S i = Some (Makedirs "/tmp/cron").
Proof.
  intros Hf. induction Hf as [|evs q ev Hf IH Hev]; intros Hq.
  - by destruct Hq as [|[|]].
  - assert (q = TmpDirMade \/ q = DirectLoading \/ q = DaemonStarted ->
            exists i, (evs ++ [ev]) !! i = Some (Makedirs "/run/cron") /\
                      (evs ++ [ev]) !! S i = Some (Makedirs "/tmp/cron")) as Hlift.
    { intros (i & H1 & H2)%IH. exists i.
      split; by apply lookup_app_l_Some. }
    destruct ev; cbn [allowed phase_after] in Hev, Hq;
      try by destruct Hq as [|[|]].
    + destruct Hev as [[-> ->]|[-> ->]].
      * cbn in Hq. by destruct Hq as [|[|]].
      * destruct evs as [|e0 evs0 _] using rev_ind;
          [by apply follows_nil_inv in Hf|].
        apply follows_snoc_inv in Hf as (q' & _ & _ & Hq').
        destruct e0; try discriminate Hq'.
        symmetry in Hq'. apply phase_after_makedirs_run in Hq' as ->.
        exists (length evs0). split.
        -- rewrite <- app_assoc. cbn [app]. by apply list_lookup_middle.
        -- rewrite <- app_assoc. cbn [app]. rewrite lookup_app_r by lia.
           by replace (S (length evs0) - length evs0)%nat with 1%nat by lia.
    + destruct Hev as (-> & _). apply Hlift. by left.
    + destruct Hev as (-> & _). apply Hlift. by left.
    + destruct Hev as ([-> | ->] & _); apply Hlift; auto.
Qed.

(** X10. The wait for the sidecar can only be the very first call of a run
    of [main], and is made only when [CORTEX_ACTIVE_NEURON] is set and not
    empty. *)
Theorem X10_sidecar_wait_is_first ext environ w k :
  emitted (main ext environ) w !! k = Some WaitNeuronRtd ->
  k = 0%nat /\ truthy (environ !! "CORTEX_ACTIVE_NEURON") = true.
Proof.
  intros Hk. destruct (main_follows ext environ w) as [q Hf].
  destruct (follows_lookup _ _ _ _ _ _ _ Hf Hk) as (q' & Hf' & -> & Hflag).
  split; [|done].
  apply follows_started in Hf'.
  apply lookup_lt_Some in Hk.
  apply (f_equal length) in Hf'. rewrite length_take in Hf'. cbn in Hf'. lia.
Qed.

(** X10, at a run with the sidecar. *)
Lemma X10_sidecar_wait_is_first_witness :
  0%nat = 0%nat /\
  truthy (<["CORTEX_ACTIVE_NEURON" := "true"]> sample_environ !! "CORTEX_ACTIVE_NEURON")
    = true.
Proof.
  apply (X10_sidecar_wait_is_first (sample_ext PythonPredictorType [])
           (<["CORTEX_ACTIVE_NEURON" := "true"]> sample_environ) sample_world 0).
  vm_compute. reflexivity.
Defined.

(** X11. A run of [main] fetches the API spec at most once, and with the
    provider, the spec path, the cache directory, the bucket and the region
    that the environment holds. *)
Theorem X11_get_spec_once ext environ w k provider spec_path cache_dir bucket region :
  emitted (main ext environ) w !! k =
    Some (GetSpec provider spec_path cache_dir bucket region) ->
  environ !! "CORTEX_PROVIDER" = Some provider /\
  environ !! "CORTEX_API_SPEC" = Some spec_path /\
  cache_dir = environ !! "CORTEX_CACHE_DIR" /\
  bucket = environ !! "CORTEX_BUCKET" /\
  region = environ !! "AWS_REGION" /\
  (forall k' provider' spec_path' cache_dir' bucket' region',
     emitted (main ext environ) w !! k' =
       Some (GetSpec provider' spec_path' cache_dir' bucket' region') ->
     k' = k).
Proof.
  intros Hk. destruct (main_follows ext environ w) as [q Hf].
  destruct (follows_lookup _ _ _ _ _ _ _ Hf Hk) as (q' & _ & _ & Hp & Hs & Hc & Hb & Hr).
  repeat split; try done.
  intros k' provider' spec_path' cache_dir' bucket' region' Hk'.
  destruct (Nat.lt_trichotomy k k') as [Hlt|[Heq|Hgt]]; [|done|].
  - destruct (follows_before _ _ _ _ _ _ _ _ _ Hf Hlt Hk Hk') as (q2 & [Hq2 _] & Hrank).
    cbn in Hrank. lia.
  - destruct (follows_before _ _ _ _ _ _ _ _ _ Hf Hgt Hk' Hk) as (q2 & [Hq2 _] & Hrank).
    cbn in Hrank. lia.
Qed.

(** X11, at the sample run, whose second call fetches the spec. *)
Lemma X11_get_spec_once_witness :
  sample_environ !! "CORTEX_PROVIDER" = Some "aws" /\
  sample_environ !! "CORTEX_API_SPEC" = Some "s3://bucket/apis/iris/spec.msgpack".
Proof.
  destruct (X11_get_spec_once (sample_ext PythonPredictorType []) sample_environ
              sample_world 1 "aws" "s3://bucket/apis/iris/spec.msgpack" None None None)
    as (Hp & Hs & _).
  - vm_compute. reflexivity.
  - split; [exact Hp|exact Hs].
Defined.

(** X12. In every run of [main], whatever side reloading was started fits
    the predictor type of the spec that was fetched: a
    [FileBasedModelsTreeUpdater] only for a Python or ONNX predictor, a
    [TFSModelLoader] only for a TensorFlow predictor, a direct load only for
    a TensorFlowNeuron predictor.  A daemon is given the interval 10, the
    fetched spec and [CORTEX_MODEL_DIR] as its download directory, and the
    [TFSModelLoader] the same directory as model directory. *)
Theorem X12_side_reloading_fits_type ext environ w k ev :
  emitted (main ext environ) w !! k = Some ev ->
  match ev with
  | FileBasedModelsTreeUpdaterStart interval api_spec download_dir =>
      interval = 10 /\
      run_spec ext environ = Some api_spec /\
      environ !! "CORTEX_MODEL_DIR" = Some download_dir /\
      (run_kind ext environ = Some PythonPredictorType \/
       run_kind ext environ = Some ONNXPredictorType)
  | TFSModelLoaderStart interval api_spec address tfs_model_dir download_dir =>
      interval = 10 /\
      run_spec ext environ = Some api_spec /\
      environ !! "CORTEX_MODEL_DIR" = Some download_dir /\
      tfs_model_dir = download_dir /\
      run_kind ext environ = Some TensorFlowPredictorType
  | AddModelsConfig _ _ _ _ =>
      run_kind ext environ = Some TensorFlowNeuronPredictorType
  | _ => True
  end.
Proof.
  intros Hk. destruct (main_follows ext environ w) as [q Hf].
  destruct (follows_lookup _ _ _ _ _ _ _ Hf Hk) as (q' & _ & Hev).
  destruct ev; cbn [allowed] in Hev; try done.
  - by destruct Hev as (_ & ? & ? & ? & ?).
  - by destruct Hev as (_ & ? & ? & ? & ? & _ & ?).
  - by destruct Hev as (_ & ? & _).
Qed.

(** X12, at a run for an ONNX predictor, whose fifth call starts the file
    daemon. *)
Lemma X12_side_reloading_fits_type_witness :
  let ext := sample_ext ONNXPredictorType [] in
  10 = 10 /\
  run_spec ext sample_environ = Some (sample_api_spec PyNone PyNone) /\
  sample_environ !! "CORTEX_MODEL_DIR" = Some "/mnt/model" /\
  (run_kind ext sample_environ = Some PythonPredictorType \/
   run_kind ext sample_environ = Some ONNXPredictorType).
Proof.
  intros ext.
  apply (X12_side_reloading_fits_type ext sample_environ sample_world 4
           (FileBasedModelsTreeUpdaterStart 10 (sample_api_spec PyNone PyNone)
              "/mnt/model")).
  vm_compute. reflexivity.
Defined.

(** X13. A run of [main] starts at most one daemon, and never both a daemon
    and a direct load. *)
Theorem X13_one_strategy_per_run ext environ w i j e1 e2 :
  emitted (main ext environ) w !! i = Some e1 ->
  emitted (main ext environ) w !! j = Some e2 ->
  is_daemon_start e1 = true ->
  (is_daemon_start e2 = true -> i = j) /\ is_direct_load e2 = false.
Proof.
  intros H1 H2 Hd1. destruct (main_follows ext environ w) as [q Hf].
  assert (rank (phase_after e1) = 7%nat) as Hrank1 by by destruct e1.
  destruct (follows_lookup _ _ _ _ _ _ _ Hf H1) as (q1 & _ & Hev1).
  assert (q1 = TmpDirMade) as ->.
  { destruct e1; try discriminate Hd1; by destruct Hev1. }
  destruct (Nat.lt_trichotomy i j) as [Hlt|[Heq|Hgt]].
  - destruct (follows_before _ _ _ _ _ _ _ _ _ Hf Hlt H1 H2) as (q2 & Hev2 & Hrank).
    rewrite Hrank1 in Hrank.
    destruct e2; cbn [allowed] in Hev2; split; try done.
    + destruct Hev2 as (-> & _). cbn in Hrank. lia.
    + destruct Hev2 as (-> & _). cbn in Hrank. lia.
    + destruct Hev2 as ([-> | ->] & _); cbn in Hrank; lia.
  - subst j. rewrite H1 in H2. injection H2 as <-.
    split; [done|]. by destruct e1.
  - destruct (follows_before _ _ _ _ _ _ _ _ _ Hf Hgt H2 H1) as (q2 & Hev2 & Hrank).
    assert (q2 = TmpDirMade) as ->.
    { destruct e1; try discriminate Hd1; by destruct Hev2. }
    destruct e2; cbn in Hrank; split; try done; lia.
Qed.

(** X13, at a run for a TensorFlow predictor: its one daemon is the fifth
    call, and the launch after it is no direct load. *)
Lemma X13_one_strategy_per_run_witness :
  is_direct_load
    (UvicornRun "cortex.serve.wsgi:app" "0.0.0.0" 8888 2 4 1024 (PyDict ∅) "info") = false.
Proof.
  apply (X13_one_strategy_per_run (sample_ext TensorFlowPredictorType []) sample_environ
           sample_world 4 5
           (TFSModelLoaderStart 10 (sample_api_spec PyNone PyNone) "tfs:9000"
              "/mnt/model" "/mnt/model")).
  - vm_compute. reflexivity.
  - vm_compute. reflexivity.
  - reflexivity.
Defined.

(** X14. Before a run of [main] starts a daemon or makes a direct load, it
    has created [/run/cron] and, right after it, [/tmp/cron]. *)
Theorem X14_scratch_dirs_first ext environ w j ev :
  emitted (main ext environ) w !! j = Some ev ->
  is_daemon_start ev || is_direct_load ev = true ->
  exists i,
    (S i < j)%nat /\
    emitted (main ext environ) w !! i = Some (Makedirs "/run/cron") /\
    emitted (main ext environ) w !! S i = Some (Makedirs "/tmp/cron").
Proof.
  intros Hj Hside. destruct (main_follows ext environ w) as [q Hf].
  destruct (follows_lookup _ _ _ _ _ _ _ Hf Hj) as (q' & Hf' & Hev).
  assert (q' = TmpDirMade \/ q' = DirectLoading \/ q' = DaemonStarted) as Hq'.
  { destruct ev; try discriminate Hside; cbn [allowed] in Hev.
    - destruct Hev as (-> & _). by left.
    - destruct Hev as (-> & _). by left.
    - destruct Hev as ([-> | ->] & _); auto. }
  destruct (follows_dirs_made _ _ _ _ _ Hf' Hq') as (i & H1 & H2).
  apply lookup_take_Some in H1 as [H1 _].
  apply lookup_take_Some in H2 as [H2 Hlt].
  by exists i.
Qed.

(** X14, at a run for a TensorFlowNeuron predictor, whose fifth call is the
    first direct load. *)
Lemma X14_scratch_dirs_first_witness :
  exists i,
    (S i < 4)%nat /\
    emitted (main (sample_ext TensorFlowNeuronPredictorType []) sample_environ)
      sample_world !! i = Some (Makedirs "/run/cron") /\
    emitted (main (sample_ext TensorFlowNeuronPredictorType []) sample_environ)
      sample_world !! S i = Some (Makedirs "/tmp/cron").
Proof.
  apply (X14_scratch_dirs_first (sample_ext TensorFlowNeuronPredictorType [])
           sample_environ sample_world 4
           (AddModelsConfig "tfs:9000" ["iris"; "resnet50"]
              ["/mnt/model/iris"; "/mnt/model/resnet50"] false)).
  - vm_compute. reflexivity.
  - reflexivity.
Defined.

(** X15. [main] returns only after [uvicorn.run] has returned: when a run
    ends without an exception, its last call is the launch, and it
    succeeded. *)
Theorem X15_return_means_launched ext environ w :
  (main ext environ w).1 = Returned tt ->
  exists evs ev,
    emitted (main ext environ) w = evs ++ [ev] /\
    is_launch ev = true /\
    Forall (fun ev' => is_launch ev' = false) evs /\
    uvicorn_run_ok ext = true.
Proof.
  intros Hret. pose proof (main_ends_emitted ext environ w) as Hends.
  remember (emitted (main ext environ) w) as all eqn:Hall.
  remember (main ext environ w).1 as o eqn:Ho.
  destruct Hends as [e evs Hl Hd|evs a ms ps r Hl Hd Hf|evs ev Hl Hd Hcall Hcfg];
    try discriminate Hret.
  exists evs, ev. split; [done|].
  destruct Hcall as (? & ? & ? & ? & ? & ? & _ & _ & _ & _ & _ & _ & ->).
  repeat split; [done|]. unfold outcome_of in Hret.
  by destruct (uvicorn_run_ok ext).
Qed.

(** X15, at the sample run. *)
Lemma X15_return_means_launched_witness :
  exists evs ev,
    emitted (main (sample_ext PythonPredictorType []) sample_environ) sample_world =
      evs ++ [ev] /\
    is_launch ev = true /\
    Forall (fun ev' => is_launch ev' = false) evs /\
    uvicorn_run_ok (sample_ext PythonPredictorType []) = true.
Proof.
  apply (X15_return_means_launched (sample_ext PythonPredictorType []) sample_environ
           sample_world).
  vm_compute. reflexivity.
Defined.

(** ** A complete configuration starts the server *)

Lemma present_Some {A} (o : option A) : present o = true -> exists a, o = Some a.
Proof. destruct o as [a|]; [by exists a|done]. Qed.

Lemma env_int_Some environ key z :
  env_int environ key = Some z ->
  exists s, environ !! key = Some s /\ Py.to_int s = Some z.
Proof.
  unfold env_int. destruct (environ !! key) as [s|]; [|done].
  intros Hz. by exists s.
Qed.

(** On a spec of the expected shape the caching mode is read off the two
    sizes. *)
Lemma is_model_caching_enabled_sizes (d p m : gmap string pyval) c dsz w :
  d !! "predictor" = Some (PyDict p) ->
  p !! "models" = Some (PyDict m) ->
  m !! "cache_size" = Some c ->
  m !! "disk_cache_size" = Some dsz ->
  is_model_caching_enabled (PyDict d) w =
    (Returned (is_not_None c && is_not_None dsz), w).
Proof.
  intros Hp Hm Hc Hd.
  unfold is_model_caching_enabled, bind, getitem, or_raise, ret, raise.
  rewrite Hp. cbv beta iota. rewrite Hm. cbv beta iota. rewrite Hc. cbv beta iota.
  destruct (is_not_None c); cbv beta iota; [|done]. by rewrite Hd.
Qed.

Lemma wp_run {A} (m : M A) (a : A) Q w w' :
  m w = (Returned a, w') -> Q (Returned a) w' -> wp m Q w.
Proof. intros Hm HQ. unfold wp. by rewrite Hm. Qed.

(** One step through a statement whose outcome the hypotheses settle. *)
Ltac live_step :=
  lazymatch goal with
  | |- wp (bind _ _) _ _ => apply wp_bind
  | |- wp (ret _) _ _ => apply wp_ret
  | |- wp (os_environ _ _) _ _ => unfold os_environ
  | |- wp (int _) _ _ => unfold int
  | |- wp (makedirs _ _) _ _ => unfold makedirs
  | |- wp (add_models_config _ _ _ _ _) _ _ => unfold add_models_config
  | |- wp (or_raise ?o _) _ _ =>
      apply wp_or_raise;
      lazymatch goal with H : o = Some _ |- _ => rewrite H end
  | |- wp (yaml_load_file _ _) _ _ =>
      apply wp_yaml_load_file;
      repeat match goal with
             | H : files _ !! _ = Some _ |- _ => rewrite H
             | H : yaml_load _ _ = Some _ |- _ => rewrite H
             end
  | |- wp (json_dump_file _ _ _) _ _ =>
      apply wp_json_dump_file;
      lazymatch goal with H : forall path, open_w_ok _ path = true |- _ => rewrite H end
  | |- wp (getitem (PyDict _) _) _ _ => unfold getitem at 1; cbv beta iota
  | |- wp (gt (PyInt _) _) _ _ => unfold gt at 1; cbv beta iota
  | |- wp (is_model_caching_enabled _) _ _ =>
      eapply wp_run; [eapply is_model_caching_enabled_sizes; eassumption|]
  | |- wp (main_used_ports _ _) _ _ => unfold main_used_ports, os_getenv
  | |- wp (main_uvicorn_run _ _ _) _ _ => unfold main_uvicorn_run
  | |- wp (load_tensorflow_serving_models _ _) _ _ =>
      unfold load_tensorflow_serving_models, os_getenv
  | |- wp (main_side_reloading _ _ _ _ true _) _ _ =>
      rewrite main_side_reloading_cached
  | |- wp (main_side_reloading _ _ _ PythonPredictorType false _) _ _ =>
      rewrite main_side_reloading_python
  | |- wp (main_side_reloading _ _ _ ONNXPredictorType false _) _ _ =>
      rewrite main_side_reloading_onnx
  | |- wp (main_side_reloading _ _ _ TensorFlowPredictorType false _) _ _ =>
      rewrite main_side_reloading_tensorflow
  | |- wp (main_side_reloading _ _ _ TensorFlowNeuronPredictorType false _) _ _ =>
      rewrite main_side_reloading_neuron
  | |- wp (call _ (answer ?ok) _) _ _ =>
      apply wp_call_unit;
      first [ lazymatch ok with true => idtac end
            | lazymatch goal with H : ok = true |- _ => rewrite H end
            | lazymatch goal with
              | H : forall path, makedirs_ok _ path = true |- _ => rewrite !H
              end
            | lazymatch goal with
              | H : forall address, add_models_config_ok _ address = true |- _ =>
                  rewrite !H
              end ];
      cbn [outcome_of]
  | |- wp (call _ ?ans _) _ _ =>
      apply wp_call; lazymatch goal with H : ans = Some _ |- _ => rewrite H end
  | |- wp (for_each _ _) _ _ =>
      apply (wp_for_each (fun _ => True)); [done| intros ? ? _ _ | intros ? _]
  | |- wp (if ?b then _ else _) _ _ =>
      lazymatch b with
      | true => cbv iota
      | false => cbv iota
      | negb true => cbn [negb]
      | negb false => cbn [negb]
      | negb ?c => destruct c eqn:?; cbn [negb]
      | _ => first [ lazymatch goal with H : b = _ |- _ => rewrite H end
                   | destruct b eqn:? ]
      end
  | |- wp_then _ _ _ _ => unfold wp_then at 1; cbv beta iota
  | |- Returned tt = Returned tt => reflexivity
  | |- True => exact I
  end.

(** With a complete configuration no statement of [main] raises. *)
Lemma main_returns
    ext environ w text log_config kind (d p m : gmap string pyval) replicas c dsz :
  files w !! "/src/cortex/serve/log_config.yaml" = Some text ->
  yaml_load ext text = Some log_config ->
  wait_neuron_rtd_ok ext = true ->
  (forall path, open_w_ok ext path = true) ->
  (forall path, makedirs_ok ext path = true) ->
  file_updater_ok ext = true ->
  tfs_loader_ok ext = true ->
  (forall address, add_models_config_ok ext address = true) ->
  uvicorn_run_ok ext = true ->
  config_complete environ = true ->
  run_spec ext environ = Some (PyDict d) ->
  predictor_type_from_api_spec ext (PyDict d) = Some kind ->
  d !! "predictor" = Some (PyDict p) ->
  p !! "processes_per_replica" = Some (PyInt replicas) ->
  p !! "models" = Some (PyDict m) ->
  m !! "cache_size" = Some c ->
  m !! "disk_cache_size" = Some dsz ->
  (kind = TensorFlowNeuronPredictorType ->
   present (environ !! "CORTEX_MODELS")
   && present (Py.to_int (os_getenv_or environ "CORTEX_TF_BASE_SERVING_PORT" "9000"))
   = true) ->
  (main ext environ w).1 = Returned tt.
Proof.
  intros Hfile Hload Hwait Hopen Hmk Hfu Htl Hadd Huv Hcfg Hspec Hkind Hp Hr Hm Hc Hd
    Hneuron.
  unfold config_complete in Hcfg.
  destruct (truthy (environ !! "CORTEX_MULTIPLE_TF_SERVERS")) eqn:Hmulti.
  all: repeat match type of Hcfg with
              | _ && _ = true => apply andb_true_iff in Hcfg as [Hcfg ?]
              end.
  all: repeat match goal with
              | H : present (env_int _ _) = true |- _ =>
                  apply present_Some in H as [? (? & ? & ?)%env_int_Some]
              | H : present (_ !! _) = true |- _ => apply present_Some in H as [? ?]
              end.
  all: unfold run_spec in Hspec.
  all: repeat match type of Hspec with
              | context [?e !! ?k] =>
                  match goal with H : e !! k = Some _ |- _ => rewrite H in Hspec end
              end.
  all: cbn [mbind option_bind] in Hspec.
  all: destruct kind;
    [clear Hneuron|clear Hneuron|
     specialize (Hneuron eq_refl);
     apply andb_true_iff in Hneuron as [[? ?]%present_Some [? ?]%present_Some]
    |clear Hneuron].
  all: change (wp (main ext environ) (fun o _ => o = Returned tt) w).
  all: unfold main, os_getenv.
  all: repeat live_step.
Qed.

(** X16. When every value that the run reads is there and well formed, the
    API spec has the expected shape, and every collaborator answers, [main]
    gets to [uvicorn.run] and returns as it returns: the run ends without an
    exception, and its last call, the only launch, is [uvicorn.run] with
    host [0.0.0.0], the four integers of the environment and the logging
    configuration that was loaded. *)
Theorem X16_complete_configuration_launches
    ext environ w text log_config kind (d p m : gmap string pyval) replicas c dsz :
  files w !! "/src/cortex/serve/log_config.yaml" = Some text ->
  yaml_load ext text = Some log_config ->
  wait_neuron_rtd_ok ext = true ->
  (forall path, open_w_ok ext path = true) ->
  (forall path, makedirs_ok ext path = true) ->
  file_updater_ok ext = true ->
  tfs_loader_ok ext = true ->
  (forall address, add_models_config_ok ext address = true) ->
  uvicorn_run_ok ext = true ->
  config_complete environ = true ->
  run_spec ext environ = Some (PyDict d) ->
  predictor_type_from_api_spec ext (PyDict d) = Some kind ->
  d !! "predictor" = Some (PyDict p) ->
  p !! "processes_per_replica" = Some (PyInt replicas) ->
  p !! "models" = Some (PyDict m) ->
  m !! "cache_size" = Some c ->
  m !! "disk_cache_size" = Some dsz ->
  (kind = TensorFlowNeuronPredictorType ->
   present (environ !! "CORTEX_MODELS")
   && present (Py.to_int (os_getenv_or environ "CORTEX_TF_BASE_SERVING_PORT" "9000"))
   = true) ->
  (main ext environ w).1 = Returned tt /\
  exists evs port workers limit_concurrency backlog,
    env_int environ "CORTEX_SERVING_PORT" = Some port /\
    env_int environ "CORTEX_PROCESSES_PER_REPLICA" = Some workers /\
    env_int environ "CORTEX_MAX_PROCESS_CONCURRENCY" = Some limit_concurrency /\
    env_int environ "CORTEX_SO_MAX_CONN" = Some backlog /\
    emitted (main ext environ) w =
      evs ++ [UvicornRun "cortex.serve.wsgi:app" "0.0.0.0" port workers
                limit_concurrency backlog log_config "info"] /\
    Forall (fun ev => is_launch ev = false) evs.
Proof.
  intros Hfile Hload Hwait Hopen Hmk Hfu Htl Hadd Huv Hcfg Hspec Hkind Hp Hr Hm Hc Hd
    Hneuron.
  pose proof (main_returns ext environ w text log_config kind d p m replicas c dsz
                Hfile Hload Hwait Hopen Hmk Hfu Htl Hadd Huv Hcfg Hspec Hkind Hp Hr Hm
                Hc Hd Hneuron) as Hret.
  split; [exact Hret|].
  pose proof (main_ends_emitted ext environ w) as Hends.
  remember (emitted (main ext environ) w) as all eqn:Hall.
  remember (main ext environ w).1 as o eqn:Ho.
  destruct Hends as [e evs Hl Hdl|evs a ms ps r Hl Hdl Hf|evs ev Hl Hdl Hcall _];
    try discriminate Hret.
  destruct Hcall as (text' & log_config' & port & workers & limit & backlog &
                     Hfile' & Hload' & Hport & Hworkers & Hlimit & Hbacklog & ->).
  rewrite Hfile in Hfile'. injection Hfile' as <-.
  rewrite Hload in Hload'. injection Hload' as <-.
  by exists evs, port, workers, limit, backlog.
Qed.

(** X16, at the sample run for a TensorFlowNeuron predictor. *)
Lemma X16_complete_configuration_launches_witness :
  (main (sample_ext TensorFlowNeuronPredictorType []) sample_environ sample_world).1 =
    Returned tt /\
  exists evs port workers limit_concurrency backlog,
    env_int sample_environ "CORTEX_SERVING_PORT" = Some port /\
    env_int sample_environ "CORTEX_PROCESSES_PER_REPLICA" = Some workers /\
    env_int sample_environ "CORTEX_MAX_PROCESS_CONCURRENCY" = Some limit_concurrency /\
    env_int sample_environ "CORTEX_SO_MAX_CONN" = Some backlog /\
    emitted (main (sample_ext TensorFlowNeuronPredictorType []) sample_environ)
      sample_world =
      evs ++ [UvicornRun "cortex.serve.wsgi:app" "0.0.0.0" port workers
                limit_concurrency backlog (PyDict ∅) "info"] /\
    Forall (fun ev => is_launch ev = false) evs.
Proof.
  apply (X16_complete_configuration_launches
           (sample_ext TensorFlowNeuronPredictorType []) sample_environ sample_world
           "version: 1" (PyDict ∅) TensorFlowNeuronPredictorType
           {[ "predictor" :=
                PyDict {[ "processes_per_replica" := PyInt 2;
                          "models" := PyDict {[ "cache_size" := PyNone;
                                                "disk_cache_size" := PyNone ]} ]} ]}
           {[ "processes_per_replica" := PyInt 2;
              "models" := PyDict {[ "cache_size" := PyNone;
                                    "disk_cache_size" := PyNone ]} ]}
           {[ "cache_size" := PyNone; "disk_cache_size" := PyNone ]}
           2 PyNone PyNone);
    reflexivity.
Defined.

(** ** The flag of multiple servers *)

(** X17. [CORTEX_MULTIPLE_TF_SERVERS] is on for every value that is not the
    empty string, whatever it says, and off when it is unset or empty: in
    the first case the table of ports is written (when the base port and
    the number of processes are read and the file opens), in the second the
    function does nothing and does not even read the two values. *)
Theorem X17_flag_is_any_non_empty_value ext environ w :
  (forall value base n,
     environ !! "CORTEX_MULTIPLE_TF_SERVERS" = Some value ->
     value <> "" ->
     env_int environ "CORTEX_TF_BASE_SERVING_PORT" = Some base ->
     env_int environ "CORTEX_PROCESSES_PER_REPLICA" = Some n ->
     open_w_ok ext "/run/used_ports.json" = true ->
     main_used_ports ext environ w =
       (Returned tt,
        World (<["/run/used_ports.json" := json_dumps (used_ports base n)]> (files w))
              (calls w ++ [JsonDump "/run/used_ports.json"
                             (json_dumps (used_ports base n))]))) /\
  (environ !! "CORTEX_MULTIPLE_TF_SERVERS" = None \/
   environ !! "CORTEX_MULTIPLE_TF_SERVERS" = Some "" ->
   main_used_ports ext environ w = (Returned tt, w)).
Proof.
  split.
  - intros value base n Hflag Hvalue Hbase Hn Hopen.
    unfold main_used_ports, os_getenv. rewrite Hflag.
    destruct value as [|c value]; [done|]. cbn [truthy].
    unfold env_int in Hbase, Hn.
    destruct (environ !! "CORTEX_TF_BASE_SERVING_PORT") as [s1|] eqn:H1; [|done].
    destruct (environ !! "CORTEX_PROCESSES_PER_REPLICA") as [s2|] eqn:H2; [|done].
    cbn in Hbase, Hn.
    unfold bind, os_environ, int, or_raise, ret, json_dump_file.
    by rewrite H1, Hbase, H2, Hn, Hopen.
  - intros [Hflag|Hflag]; unfold main_used_ports, os_getenv; by rewrite Hflag.
Qed.

(** X17, at the value [false]: the table is written. *)
Lemma X17_flag_is_any_non_empty_value_witness :
  main_used_ports (sample_ext PythonPredictorType [])
    (<["CORTEX_MULTIPLE_TF_SERVERS" := "false"]> sample_environ) sample_world =
  (Returned tt,
   World (<["/run/used_ports.json" := json_dumps (used_ports 9000 2)]>
            (files sample_world))
         [JsonDump "/run/used_ports.json" (json_dumps (used_ports 9000 2))]).
Proof.
  apply (proj1 (X17_flag_is_any_non_empty_value (sample_ext PythonPredictorType [])
                  (<["CORTEX_MULTIPLE_TF_SERVERS" := "false"]> sample_environ)
                  sample_world) "false" 9000 2);
    [reflexivity|discriminate|reflexivity..].
Defined.

(** ** Caching and staging *)

(** One step through a call that is not a staging call. *)
Ltac staging_step :=
  lazymatch goal with
  | Hspec : run_spec _ _ = Some _ |- wp (call (GetSpec _ _ _ _ _) _ _) _ _ =>
      unfold run_spec in Hspec;
      repeat match type of Hspec with
             | context [?e !! ?k] =>
                 match goal with H : e !! k = Some _ |- _ => rewrite H in Hspec end
             end;
      cbn [mbind option_bind] in Hspec
  | Hs : since ?P ?w ?w' |- wp (call ?ev ?ans _) _ ?w' =>
      apply wp_call;
      apply (since_log P w w' ev) in Hs; [|reflexivity];
      first [ lazymatch goal with H : ans = Some _ |- _ => rewrite H end
            | destruct ans eqn:? ]
  | Hs : since ?P ?w ?w' |- wp (json_dump_file _ ?path ?d) _ ?w' =>
      apply wp_json_dump_file; destruct (open_w_ok _ _) eqn:?;
      [apply (since_calls P w w'
                (World (<[path := json_dumps d]> (files w'))
                       (calls w' ++ [JsonDump path (json_dumps d)]))
                (JsonDump path (json_dumps d))) in Hs;
       [|reflexivity|reflexivity]|]
  | |- wp (is_model_caching_enabled _) _ _ =>
      eapply wp_run; [eapply is_model_caching_enabled_sizes; eassumption|];
      repeat match goal with
             | H : is_not_None _ = _ |- _ => rewrite H
             end;
      cbn [andb]
  | Hs : since _ _ ?w' |- since _ _ ?w' => exact Hs
  end.

(** X18. When the fetched API spec has both sizes set, so that caching is
    enabled, a run of [main] stages nothing: it creates no scratch
    directory, starts no daemon and makes no direct load, whatever the
    predictor type. *)
Theorem X18_caching_stages_nothing ext environ w (d p m : gmap string pyval) c dsz :
  run_spec ext environ = Some (PyDict d) ->
  d !! "predictor" = Some (PyDict p) ->
  p !! "models" = Some (PyDict m) ->
  m !! "cache_size" = Some c ->
  m !! "disk_cache_size" = Some dsz ->
  is_not_None c = true ->
  is_not_None dsz = true ->
  Forall (fun ev => is_staging ev = false) (emitted (main ext environ) w).
Proof.
  intros Hspec Hp Hm Hc Hd Hc' Hd'.
  apply since_emitted.
  change (wp (main ext environ)
            (fun _ w' => since (fun ev => is_staging ev = false) w w') w).
  pose proof (since_refl (fun ev => is_staging ev = false) w) as Hs.
  unfold main, os_getenv.
  repeat (first [staging_step | wp_pure_step]).
Qed.

(** X18, at a run for a TensorFlowNeuron predictor with both sizes set. *)
Lemma X18_caching_stages_nothing_witness :
  Forall (fun ev => is_staging ev = false)
    (emitted
       (main {| yaml_load := fun _ => Some (PyDict ∅);
                wait_neuron_rtd_ok := true;
                open_w_ok := fun _ => true;
                get_spec := fun _ _ _ _ _ =>
                  Some (sample_api_spec (PyInt 2) (PyStr "1Gi"));
                predictor_type_from_api_spec :=
                  fun _ => Some TensorFlowNeuronPredictorType;
                makedirs_ok := fun _ => true;
                file_updater_ok := true;
                tfs_loader_ok := true;
                add_models_config_ok := fun _ => true;
                uvicorn_run_ok := true |}
             sample_environ) sample_world).
Proof.
  apply (X18_caching_stages_nothing _ sample_environ sample_world
           {[ "predictor" :=
                PyDict {[ "processes_per_replica" := PyInt 2;
                          "models" := PyDict {[ "cache_size" := PyInt 2;
                                                "disk_cache_size" := PyStr "1Gi" ]} ]} ]}
           {[ "processes_per_replica" := PyInt 2;
              "models" := PyDict {[ "cache_size" := PyInt 2;
                                    "disk_cache_size" := PyStr "1Gi" ]} ]}
           {[ "cache_size" := PyInt 2; "disk_cache_size" := PyStr "1Gi" ]}
           (PyInt 2) (PyStr "1Gi"));
    reflexivity.
Defined.
